(** * getmethatdawg: the builder and the endpoint registry

    A shallow embedding of [getmethatdawg/__init__.py] (the [Endpoint]
    record, the process-wide [EndpointRegistry], [expose]) and of
    [getmethatdawg/builder.py] (the [GetMeThatDawgBuilder] class), with the
    properties of the endpoint list, of the configuration partition and of
    the rendered artifacts.

    Conventions.
    - Python [str] values are [string]s of bytes (UTF-8 for the few
      non-ASCII characters of the templates).  [lower], [upper] and
      [strip] are those of ASCII text, which is what identifiers and
      [.env] keys are made of.
    - A [dict] is an association list in insertion order with one entry
      per key ([dict_set] overwrites in place, as Python does).
    - Methods that touch the file system, the registry or [self] run in
      a state-and-exception monad [M]; [print] calls are left out. *)

From Stdlib Require Import String Ascii List Bool Arith Lia.
Import ListNotations.
Open Scope string_scope.
Open Scope bool_scope.

(* ================================================================== *)
(** ** Python string primitives *)

Module PyStr.

Definition nl : string := String (ascii_of_nat 10) EmptyString.
Definition dq : string := String (ascii_of_nat 34) EmptyString.
Definition sq : string := "'".
Definition dq3 : string := dq ++ dq ++ dq.

Fixpoint map_str (f : ascii -> ascii) (s : string) : string :=
  match s with
  | EmptyString => EmptyString
  | String c s' => String (f c) (map_str f s')
  end.

Definition lower_char (c : ascii) : ascii :=
  let n := nat_of_ascii c in
  if ((65 <=? n) && (n <=? 90))%nat then ascii_of_nat (n + 32) else c.

Definition upper_char (c : ascii) : ascii :=
  let n := nat_of_ascii c in
  if ((97 <=? n) && (n <=? 122))%nat then ascii_of_nat (n - 32) else c.

(** [s.lower()] and [s.upper()] *)
Definition lower : string -> string := map_str lower_char.
Definition upper : string -> string := map_str upper_char.

(** [s.startswith(p)] and [s.startswith((p1, p2, ...))] *)
Definition startswith (s p : string) : bool := prefix p s.
Definition startswith_any (s : string) (ps : list string) : bool :=
  existsb (startswith s) ps.

(** [p in s] on strings *)
Fixpoint contains (p s : string) : bool :=
  prefix p s ||
  match s with
  | EmptyString => false
  | String _ s' => contains p s'
  end.

(** [any(p in s for p in ps)] *)
Definition any_in (ps : list string) (s : string) : bool :=
  existsb (fun p => contains p s) ps.

Fixpoint drop (n : nat) (s : string) : string :=
  match n, s with
  | O, _ => s
  | S _, EmptyString => EmptyString
  | S k, String _ s' => drop k s'
  end.

(** [s.replace(old, new)] for a non-empty [old]: occurrences are replaced
    from the left and do not overlap; [skip] counts the characters of a
    match that are still to be passed over. *)
Fixpoint replace_go (old new : string) (skip : nat) (s : string) : string :=
  match s with
  | EmptyString => EmptyString
  | String c s' =>
      match skip with
      | S k => replace_go old new k s'
      | O =>
          if prefix old s
          then new ++ replace_go old new (String.length old - 1) s'
          else String c (replace_go old new 0 s')
      end
  end.

Definition replace (old new s : string) : string := replace_go old new 0 s.

(** Characters removed by [s.strip()] *)
Definition is_space (c : ascii) : bool :=
  let n := nat_of_ascii c in
  (((9 <=? n) && (n <=? 13)) || ((28 <=? n) && (n <=? 32)))%nat.

Fixpoint lstrip_by (p : ascii -> bool) (s : string) : string :=
  match s with
  | EmptyString => EmptyString
  | String c s' => if p c then lstrip_by p s' else s
  end.

Fixpoint rstrip_by (p : ascii -> bool) (s : string) : string :=
  match s with
  | EmptyString => EmptyString
  | String c s' =>
      match rstrip_by p s' with
      | EmptyString => if p c then EmptyString else String c EmptyString
      | r => String c r
      end
  end.

Definition strip_by (p : ascii -> bool) (s : string) : string :=
  rstrip_by p (lstrip_by p s).

Definition lstrip : string -> string := lstrip_by is_space.
Definition strip : string -> string := strip_by is_space.
(** [s.strip(c)] for a one-character argument *)
Definition strip_char (c : ascii) : string -> string := strip_by (Ascii.eqb c).

(** [sep in s] for a one-character [sep], and [s.split(sep, 1)] when it is *)
Fixpoint has_char (sep : ascii) (s : string) : bool :=
  match s with
  | EmptyString => false
  | String c s' => Ascii.eqb c sep || has_char sep s'
  end.

Fixpoint split1 (sep : ascii) (s : string) : string * string :=
  match s with
  | EmptyString => (EmptyString, EmptyString)
  | String c s' =>
      if Ascii.eqb c sep then (EmptyString, s')
      else let '(a, b) := split1 sep s' in (String c a, b)
  end.

(** [s.split(sep)[0]]: the text before the first occurrence of [sep] *)
Fixpoint before (sep s : string) : string :=
  if prefix sep s then EmptyString
  else match s with
       | EmptyString => EmptyString
       | String c s' => String c (before sep s')
       end.

(** [s.split('\n')] *)
Fixpoint split_nl (s : string) : list string :=
  match s with
  | EmptyString => [EmptyString]
  | String c s' =>
      if Ascii.eqb c (ascii_of_nat 10) then EmptyString :: split_nl s'
      else match split_nl s' with
           | [] => [String c EmptyString]
           | l :: ls => String c l :: ls
           end
  end.

(** [f.readlines()] and [for line in f]: lines with their newline kept
    (text mode: the newline is the line feed) *)
Fixpoint readlines (s : string) : list string :=
  match s with
  | EmptyString => []
  | String c s' =>
      if Ascii.eqb c (ascii_of_nat 10) then String c EmptyString :: readlines s'
      else match readlines s' with
           | [] => [String c EmptyString]
           | l :: ls => String c l :: ls
           end
  end.

(** [sep.join(ls)] *)
Fixpoint join (sep : string) (ls : list string) : string :=
  match ls with
  | [] => EmptyString
  | [l] => l
  | l :: ls' => l ++ sep ++ join sep ls'
  end.

(** [''.join(ls)], the text that [writelines(ls)] writes *)
Fixpoint cat (ls : list string) : string :=
  match ls with
  | [] => EmptyString
  | l :: ls' => l ++ cat ls'
  end.

(** The text of a template given line by line, each line newline-ended *)
Definition text (ls : list string) : string :=
  cat (map (fun l => l ++ nl) ls).

(** [' ' * n] *)
Fixpoint spaces (n : nat) : string :=
  match n with
  | O => EmptyString
  | S k => String " " (spaces k)
  end.

(** Truth value of a string: non-empty *)
Definition truthy (s : string) : bool :=
  match s with EmptyString => false | _ => true end.

Definition in_list (s : string) (l : list string) : bool :=
  existsb (String.eqb s) l.

(** [s.endswith(suf)] *)
Fixpoint endswith (s suf : string) : bool :=
  String.eqb s suf ||
  match s with
  | EmptyString => false
  | String _ s' => endswith s' suf
  end.

(** The split of [s] at its last dot, when it has one *)
Fixpoint rsplit_dot (s : string) : option (string * string) :=
  match s with
  | EmptyString => None
  | String c s' =>
      match rsplit_dot s' with
      | Some (a, b) => Some (String c a, b)
      | None => if Ascii.eqb c "." then Some (EmptyString, s') else None
      end
  end.

End PyStr.
Import PyStr.

(* ================================================================== *)
(** ** Dictionaries in insertion order *)

Module Dict.

Definition dict : Type := list (string * string).

(** [d[k] = v] *)
Fixpoint dict_set (k v : string) (d : dict) : dict :=
  match d with
  | [] => [(k, v)]
  | (k', v') :: d' =>
      if String.eqb k' k then (k', v) :: d' else (k', v') :: dict_set k v d'
  end.

(** [d.get(k)] *)
Fixpoint dict_get (k : string) (d : dict) : option string :=
  match d with
  | [] => None
  | (k', v') :: d' => if String.eqb k' k then Some v' else dict_get k d'
  end.

Definition keys (d : dict) : list string := map fst d.


(** A well-formed dictionary has one entry per key. *)
Definition wf (d : dict) : Prop := NoDup (keys d).

End Dict.
Import Dict.

(* ================================================================== *)
(** ** The syntax tree read by [ast.walk] *)

Module Ast.

(** The shapes of a return annotation that the builder tells apart. *)
Inductive expr : Type :=
| Name (id : string)
| Subscript (value : expr)
| ConstantStr (s : string)
| OtherExpr.

(** A node of the tree.  [FunctionDef] carries [node.name], the names of
    [node.args.args], [node.returns] and [node.body]; [ExprStmt] is an
    expression statement; [Other] is any other node that has statements
    below it (a module, a class, [if], [for], [try], an exception
    handler, an [async def], ...) with its children in field order.
    Expressions hold no statement, so they are left out of the children. *)
#[warnings="-register-all"]
Inductive node : Type :=
| FunctionDef (name : string) (args : list string) (returns : option expr)
              (body : list node)
| ExprStmt (value : expr)
| Other (children : list node).

(** [ast.iter_child_nodes] *)
Definition children_of (n : node) : list node :=
  match n with
  | FunctionDef _ _ _ body => body
  | ExprStmt _ => []
  | Other cs => cs
  end.

Fixpoint size (n : node) : nat :=
  match n with
  | FunctionDef _ _ _ body => S (list_sum (map size body))
  | ExprStmt _ => 1
  | Other cs => S (list_sum (map size cs))
  end.

Definition sizes (q : list node) : nat := list_sum (map size q).

(** [ast.walk]: the nodes in breadth-first order, from a queue
    ([todo.popleft()], then [todo.extend(iter_child_nodes(node))]).
    The fuel bounds the number of nodes taken from the queue. *)
Fixpoint walk_queue (fuel : nat) (todo : list node) : list node :=
  match fuel with
  | O => []
  | S fuel' =>
      match todo with
      | [] => []
      | n :: rest => n :: walk_queue fuel' (rest ++ children_of n)%list
      end
  end.

Definition walk (tree : node) : list node := walk_queue (size tree) [tree].

(** [n] is [tree] or lies below it, at any depth. *)
Inductive within : node -> node -> Prop :=
| within_self : forall n, within n n
| within_child : forall n c t, In c (children_of t) -> within n c -> within n t.


End Ast.
Import Ast.

(* ================================================================== *)
(** ** [getmethatdawg/__init__.py]: endpoints and their registration *)

(** [Endpoint].  A function object is known by its [__name__];
    [__post_init__] copies it into [func_name]. *)
Record Endpoint : Type := mkEndpoint {
  func : string;
  method : string;
  path : string;
  auth : option string;
  func_name : string
}.

Definition Endpoint_init (func method path : string) (auth : option string)
  : Endpoint :=
  mkEndpoint func method path auth func.

(** [EndpointRegistry.register], [get_endpoints] and [clear] on the list
    [_endpoints] of the registry. *)
Definition register (endpoint : Endpoint) (_endpoints : list Endpoint)
  : list Endpoint := (_endpoints ++ [endpoint])%list.

Definition get_endpoints (_endpoints : list Endpoint) : list Endpoint :=
  _endpoints.


(** One use of the decorator: [@expose(method, path, auth)] on [func]. *)
Record ExposeCall : Type := mkExpose {
  ex_method : string;
  ex_path : option string;
  ex_auth : option string;
  ex_func : string
}.

(** [expose(method, path, auth)(func)]: the endpoint built and registered;
    the function itself is returned unchanged. *)
Definition expose (c : ExposeCall) (_endpoints : list Endpoint)
  : list Endpoint :=
  let endpoint_path :=
    match ex_path c with
    | Some p => p
    | None => "/" ++ ex_func c
    end in
  let endpoint :=
    Endpoint_init (ex_func c) (upper (ex_method c)) endpoint_path (ex_auth c) in
  register endpoint _endpoints.

(* ================================================================== *)
(** ** [builder.py]: the heuristic classifier *)

Record AutoDetectedEndpoint : Type := mkAuto {
  ad_func_name : string;
  ad_path : string;
  ad_method : string;
  ad_params : list string;
  ad_return_type : string;
  ad_docstring : string
}.

Definition skip_patterns : list string :=
  [ "main"; "setup"; "init"; "test_"; "validate"; "parse"; "format";
    "print"; "log"; "debug"; "error"; "warn" ].

Definition read_prefixes : list string :=
  [ "get"; "list"; "show"; "find"; "search"; "select"; "load" ].

Definition write_prefixes : list string :=
  [ "create"; "add"; "save"; "update"; "delete"; "generate"; "process";
    "handle"; "execute" ].

(** The path every accepted function receives. *)
Definition derived_path (func_name : string) : string :=
  "/" ++ replace "_" "-" (lower func_name).

(** [_determine_http_method_and_path]; [(None, None)] when the function
    is no endpoint. *)
Definition _determine_http_method_and_path
    (func_name : string) (args : list string) (return_type docstring : string)
  : option string * option string :=
  let func_lower := lower func_name in
  if (List.length args <=? 1)%nat &&
     (startswith_any func_lower read_prefixes ||
      contains "get" func_lower || contains "search" func_lower ||
      contains "select" func_lower)
  then (Some "GET", Some (derived_path func_name))
  else if (1 <? List.length args)%nat ||
          startswith_any func_lower write_prefixes ||
          contains "save" func_lower || contains "generate" func_lower ||
          contains "process" func_lower
  then (Some "POST", Some (derived_path func_name))
  else if in_list return_type ["Dict"; "List"; "dict"; "list"] ||
          contains "Dict" return_type
  then (Some (if (List.length args <=? 1)%nat then "GET" else "POST"),
        Some (derived_path func_name))
  else if (0 <? List.length args)%nat && (3 <? String.length func_name)%nat
  then (Some (if (List.length args =? 1)%nat then "GET" else "POST"),
        Some (derived_path func_name))
  else (None, None).

(** [return_type] as read from [node.returns] *)
Definition return_type_of (returns : option expr) : string :=
  match returns with
  | Some (Name id) => id
  | Some (Subscript (Name id)) => id
  | _ => "Any"
  end.

(** [docstring] as read from [node.body] *)
Definition docstring_of (body : list node) : string :=
  match body with
  | ExprStmt (ConstantStr s) :: _ => s
  | _ => EmptyString
  end.

Definition truthy_opt (o : option string) : bool :=
  match o with Some s => truthy s | None => false end.

(** [_analyze_function_for_endpoint] on the fields of a [FunctionDef] *)
Definition analyze_def (func_name : string) (node_args : list string)
    (returns : option expr) (body : list node) : option AutoDetectedEndpoint :=
  if startswith func_name "_" then None
  else if any_in skip_patterns (lower func_name) then None
  else
    let args := filter (fun a => negb (String.eqb a "self")) node_args in
    let return_type := return_type_of returns in
    let docstring := docstring_of body in
    match _determine_http_method_and_path func_name args return_type docstring with
    | (Some method, Some path) =>
        if truthy method && truthy path
        then Some (mkAuto func_name path method args return_type docstring)
        else None
    | _ => None
    end.

(** The body of the loop of [auto_detect_endpoints]: only [FunctionDef]
    nodes are analysed. *)
Definition _analyze_function_for_endpoint (n : node)
  : option AutoDetectedEndpoint :=
  match n with
  | FunctionDef name args returns body => analyze_def name args returns body
  | _ => None
  end.

Fixpoint filter_map {A B : Type} (f : A -> option B) (l : list A) : list B :=
  match l with
  | [] => []
  | x :: l' =>
      match f x with
      | Some y => y :: filter_map f l'
      | None => filter_map f l'
      end
  end.

(** What the loop of [auto_detect_endpoints] appends for a parsed tree. *)
Definition detect (tree : node) : list AutoDetectedEndpoint :=
  filter_map _analyze_function_for_endpoint (walk tree).

(** The conversion done by [analyze_source]: a mock function that has the
    detected name, the detected path and method, no [auth]. *)
Definition to_endpoint (a : AutoDetectedEndpoint) : Endpoint :=
  Endpoint_init (ad_func_name a) (ad_method a) (ad_path a) None.

(* ================================================================== *)
(** ** [builder.py]: the configuration source and its partition *)

(** The body of the loop over the lines of a [.env] file. *)
Definition read_env_line (env_vars : dict) (line0 : string) : dict :=
  let line := strip line0 in
  if truthy line && negb (startswith line "#") then
    if has_char "=" line then
      let '(key, value) := split1 "=" line in
      let key := strip key in
      let value := strip_char "'" (strip_char (ascii_of_nat 34) (strip value)) in
      if truthy key && truthy value then dict_set key value env_vars
      else env_vars
    else env_vars
  else env_vars.

Definition read_env_text (content : string) : dict :=
  fold_left read_env_line (readlines content) [].

Definition secret_patterns : list string :=
  [ "API_KEY"; "TOKEN"; "SECRET"; "PASSWORD"; "PRIVATE_KEY"; "CREDENTIAL";
    "CLIENT_SECRET"; "AUTH_KEY"; "ACCESS_TOKEN"; "REFRESH_TOKEN" ].

Definition is_secret (key : string) : bool :=
  any_in secret_patterns (upper key).

Inductive classification : Type := Public | Sensitive.

Definition classify (key : string) : classification :=
  if is_secret key then Sensitive else Public.

(** [_categorize_env_vars]: [(secrets, regular_env)] *)
Definition _categorize_env_vars (env_vars : dict) : dict * dict :=
  fold_left
    (fun (acc : dict * dict) (kv : string * string) =>
       let '(secrets, regular_env) := acc in
       let '(key, value) := kv in
       if is_secret key
       then (dict_set key value secrets, regular_env)
       else (secrets, dict_set key value regular_env))
    env_vars ([], []).

(* ================================================================== *)
(** ** The process: files, environment, registry *)

(** A path: the directory and the file name.  Directories are absolute,
    except ["."], the working directory. *)
Record Path : Type := mkPath { dir : string; name : string }.

Definition path_eqb (p q : Path) : bool :=
  String.eqb (dir p) (dir q) && String.eqb (name p) (name q).

(** [PurePath.stem] *)
Definition stem (file_name : string) : string :=
  match rsplit_dot file_name with
  | Some (a, b) => if truthy a && truthy b then a else file_name
  | None => file_name
  end.

Definition fs : Type := list (Path * string).

Fixpoint fs_lookup (p : Path) (f : fs) : option string :=
  match f with
  | [] => None
  | (q, c) :: f' => if path_eqb q p then Some c else fs_lookup p f'
  end.

Fixpoint fs_update (p : Path) (c : string) (f : fs) : fs :=
  match f with
  | [] => [(p, c)]
  | (q, c') :: f' =>
      if path_eqb q p then (q, c) :: f' else (q, c') :: fs_update p c f'
  end.

(** What a run can see and change: the files, the directories, the
    executable bits, [os.environ], the working directory, and the list
    [_registry._endpoints] of the module [getmethatdawg]. *)
Record World : Type := mkWorld {
  files : fs;
  dirs : list string;
  executables : list Path;
  environ : dict;
  cwd : string;
  registry : list Endpoint
}.

Definition with_files (f : fs) (w : World) : World :=
  mkWorld f (dirs w) (executables w) (environ w) (cwd w) (registry w).
Definition with_dirs (d : list string) (w : World) : World :=
  mkWorld (files w) d (executables w) (environ w) (cwd w) (registry w).
Definition with_executables (x : list Path) (w : World) : World :=
  mkWorld (files w) (dirs w) x (environ w) (cwd w) (registry w).
Definition with_registry (r : list Endpoint) (w : World) : World :=
  mkWorld (files w) (dirs w) (executables w) (environ w) (cwd w) r.

Definition resolve (w : World) (p : Path) : Path :=
  if String.eqb (dir p) "." then mkPath (cwd w) (name p) else p.

Inductive exn : Type :=
| SyntaxError
| RuntimeError (msg : string)
| FileNotFoundError (p : Path)
| UserException (msg : string).

Inductive res (A : Type) : Type :=
| Ok (a : A)
| Raise (e : exn).
Arguments Ok {A} a.
Arguments Raise {A} e.

(** State and exceptions: the world after a raise is the world at the raise. *)
Definition M (A : Type) : Type := World -> res A * World.

Definition ret {A : Type} (a : A) : M A := fun w => (Ok a, w).

Definition bind {A B : Type} (m : M A) (k : A -> M B) : M B :=
  fun w =>
    match m w with
    | (Ok a, w') => k a w'
    | (Raise e, w') => (Raise e, w')
    end.

Definition raise {A : Type} (e : exn) : M A := fun w => (Raise e, w).

Notation "x <- c1 ;; c2" := (bind c1 (fun x => c2))
  (at level 61, c1 at next level, right associativity).
Notation "c1 ;; c2" := (bind c1 (fun _ => c2))
  (at level 61, right associativity).

(** [p.exists()] *)
Definition path_exists (p : Path) : M bool :=
  fun w =>
    (Ok (match fs_lookup (resolve w p) (files w) with
         | Some _ => true
         | None => false
         end), w).

(** [open(p, 'r').read()] *)
Definition read_text (p : Path) : M string :=
  fun w =>
    match fs_lookup (resolve w p) (files w) with
    | Some c => (Ok c, w)
    | None => (Raise (FileNotFoundError p), w)
    end.

(** [open(p, 'w').write(c)] *)
Definition write_text (p : Path) (c : string) : M unit :=
  fun w => (Ok tt, with_files (fs_update (resolve w p) c (files w)) w).

(** [d.mkdir(parents=True, exist_ok=True)] *)
Definition mkdir (d : string) : M unit :=
  fun w =>
    (Ok tt, if in_list d (dirs w) then w else with_dirs (dirs w ++ [d])%list w).

(** [p.chmod(p.stat().st_mode | stat.S_IEXEC)] *)
Definition chmod_exec (p : Path) : M unit :=
  fun w => (Ok tt, with_executables (resolve w p :: executables w) w).

(** [os.getenv(k)] *)
Definition getenv (k : string) : M (option string) :=
  fun w => (Ok (dict_get k (environ w)), w).

(** [Path.cwd()] *)
Definition getcwd : M string := fun w => (Ok (cwd w), w).

Definition read_registry : M (list Endpoint) :=
  fun w => (Ok (get_endpoints (registry w)), w).

Definition update_registry (f : list Endpoint -> list Endpoint) : M unit :=
  fun w => (Ok tt, with_registry (f (registry w)) w).

(* ================================================================== *)
(** ** [builder.py]: the texts of the artifacts *)

(** The generated server, up to the import of the user module *)
Definition flask_prelude : list string :=
  [ "#!/usr/bin/env python3";
    dq3;
    "Generated Flask app by getmethatdawg builder";
    dq3;
    EmptyString;
    "import os";
    "import sys";
    "import inspect";
    "from flask import Flask, request, jsonify";
    "from pathlib import Path";
    EmptyString;
    "# Add the source directory to Python path";
    "sys.path.insert(0, '/app')";
    EmptyString;
    "# Import the user's module";
    "import user_module" ].

(** Weave initialisation, present when observability is on *)
Definition weave_init_lines : list string :=
  [ EmptyString;
    "# 🐝 Initialize weave for observability (getmethatdawg auto-generated)";
    "try:";
    "    import weave";
    "    weave.init('getmethatdawg')";
    "    print(" ++ dq ++ "🐝 Weave observability initialized for project 'getmethatdawg'" ++ dq ++ ")";
    "except ImportError:";
    "    print(" ++ dq ++ "⚠️ Weave not available - install with: pip install weave" ++ dq ++ ")";
    "except Exception as e:";
    "    print(f" ++ dq ++ "⚠️ Failed to initialize weave: {e}" ++ dq ++ ")" ].

(** The application object and the argument extraction helper *)
Definition flask_helpers : list string :=
  [ EmptyString;
    "app = Flask(__name__)";
    EmptyString;
    "def extract_args_from_request(func, method):";
    "    " ++ dq3 ++ "Extract function arguments from HTTP request" ++ dq3;
    "    sig = inspect.signature(func)";
    "    args = {}";
    "    ";
    "    for param_name, param in sig.parameters.items():";
    "        if method == 'GET':";
    "            # Get from query parameters";
    "            value = request.args.get(param_name)";
    "        else:";
    "            # Get from JSON body or form data";
    "            if request.is_json:";
    "                value = request.json.get(param_name) if request.json else None";
    "            else:";
    "                value = request.form.get(param_name)";
    "        ";
    "        # Use default value if not provided";
    "        if value is None and param.default != inspect.Parameter.empty:";
    "            value = param.default";
    "        elif value is None:";
    "            # Required parameter is missing";
    "            return None, f" ++ dq ++ "Missing required parameter: {param_name}" ++ dq;
    "        ";
    "        # Basic type conversion";
    "        if param.annotation != inspect.Parameter.empty:";
    "            try:";
    "                if param.annotation == int:";
    "                    value = int(value)";
    "                elif param.annotation == float:";
    "                    value = float(value)";
    "                elif param.annotation == bool:";
    "                    value = value.lower() in ('true', '1', 'yes', 'on')";
    "            except (ValueError, TypeError):";
    "                return None, f" ++ dq ++ "Invalid type for parameter {param_name}: expected {param.annotation.__name__}" ++ dq;
    "        ";
    "        args[param_name] = value";
    "    ";
    "    return args, None";
    EmptyString ].

(** Start of the health-check route *)
Definition health_head : list string :=
  [ EmptyString;
    "@app.route('/', methods=['GET'])";
    "def health_check():";
    "    " ++ dq3 ++ "Health check endpoint" ++ dq3;
    "    return jsonify({";
    "        " ++ dq ++ "status" ++ dq ++ ": " ++ dq ++ "healthy" ++ dq ++ ",";
    "        " ++ dq ++ "service" ++ dq ++ ": " ++ dq ++ "getmethatdawg-deployed-app" ++ dq ++ ",";
    "        " ++ dq ++ "endpoints" ++ dq ++ ": [" ].

(** End of the health-check route and the entry point *)
Definition health_tail : list string :=
  [ "        ]";
    "    })";
    EmptyString;
    "if __name__ == '__main__':";
    "    port = int(os.environ.get('PORT', 5000))";
    "    app.run(host='0.0.0.0', port=port, debug=False)" ].

(** The image definition *)
Definition dockerfile_lines : list string :=
  [ "FROM python:3.11-slim";
    EmptyString;
    "WORKDIR /app";
    EmptyString;
    "# Copy requirements and install dependencies";
    "COPY requirements.txt .";
    "RUN pip install --no-cache-dir -r requirements.txt";
    EmptyString;
    "# Copy the source file and generated Flask app";
    "COPY user_module.py .";
    "COPY flask_app.py .";
    EmptyString;
    "# Expose port";
    "EXPOSE 5000";
    EmptyString;
    "# Run the Flask app";
    "CMD [" ++ dq ++ "python" ++ dq ++ ", " ++ dq ++ "flask_app.py" ++ dq ++ "]" ].

(** Start of the deployment script *)
Definition script_header : list string :=
  [ "#!/bin/bash";
    "# Auto-generated deployment script for setting secrets";
    "set -euo pipefail";
    EmptyString;
    "echo " ++ dq ++ "🔐 Setting up secrets for deployment..." ++ dq;
    EmptyString ].

(** End of the deployment script when secrets were staged *)
Definition script_footer_secrets : list string :=
  [ EmptyString;
    "echo " ++ dq ++ "✅ All secrets staged. Deploying with secrets..." ++ dq;
    "flyctl deploy --remote-only" ].

(** End of the deployment script when there is no secret *)
Definition script_footer_plain : list string :=
  [ EmptyString;
    "echo " ++ dq ++ "ℹ No secrets to set. Proceeding with normal deployment..." ++ dq;
    "flyctl deploy --remote-only" ].

(** The manifest after the environment table *)
Definition fly_toml_tail : list string :=
  [ EmptyString;
    EmptyString;
    "[http_service]";
    "  internal_port = 5000";
    "  force_https = true";
    "  auto_stop_machines = true";
    "  auto_start_machines = true";
    "  min_machines_running = 0";
    "  processes = [" ++ dq ++ "app" ++ dq ++ "]";
    EmptyString;
    "[[http_service.checks]]";
    "  interval = " ++ dq ++ "10s" ++ dq;
    "  grace_period = " ++ dq ++ "5s" ++ dq;
    "  method = " ++ dq ++ "GET" ++ dq;
    "  path = " ++ dq ++ "/" ++ dq;
    "  protocol = " ++ dq ++ "http" ++ dq;
    "  timeout = " ++ dq ++ "5s" ++ dq;
    "  tls_skip_verify = false";
    EmptyString;
    "[[vm]]";
    "  memory = '512mb'";
    "  cpu_kind = 'shared'";
    "  cpus = 1" ].

(** The route binding of one endpoint *)
Definition route_code (e : Endpoint) : string :=
  text
  [ EmptyString;
    "@app.route('" ++ path e ++ "', methods=['" ++ method e ++ "'])";
    "def " ++ func_name e ++ "_route():";
    "    " ++ dq3 ++ "Route for " ++ func_name e ++ dq3;
    "    try:";
    "        args, error = extract_args_from_request(user_module." ++ func_name e ++ ", '" ++ method e ++ "')";
    "        if error:";
    "            return jsonify({" ++ dq ++ "error" ++ dq ++ ": error}), 400";
    "        ";
    "        result = user_module." ++ func_name e ++ "(" ++ "*" ++ "*args)";
    "        ";
    "        # Ensure result is JSON serializable";
    "        if isinstance(result, dict):";
    "            return jsonify(result)";
    "        else:";
    "            return jsonify({" ++ dq ++ "result" ++ dq ++ ": result})";
    "    ";
    "    except Exception as e:";
    "        return jsonify({" ++ dq ++ "error" ++ dq ++ ": str(e)}), 500" ].

(** The manifest up to the environment table *)
Definition fly_toml_head (app_name : string) : list string :=
  [ "# fly.toml - Generated by getmethatdawg";
    "app = " ++ dq ++ app_name ++ dq;
    "primary_region = " ++ dq ++ "iad" ++ dq;
    EmptyString;
    "[build]";
    EmptyString;
    "[env]" ].

(** One element of the health-check list; a comma follows all but the last. *)
Definition health_entry (n : nat) (ie : nat * Endpoint) : string :=
  let '(i, e) := ie in
  let comma := if (i <? n - 1)%nat then "," else EmptyString in
  "            {" ++ dq ++ "method" ++ dq ++ ": " ++ dq ++ method e ++ dq ++
  ", " ++ dq ++ "path" ++ dq ++ ": " ++ dq ++ path e ++ dq ++ "}" ++ comma ++ nl.

Definition enumerate {A : Type} (l : list A) : list (nat * A) :=
  combine (seq 0 (List.length l)) l.

(** The text written to [flask_app.py] *)
Definition flask_app_text (wandb_enabled : bool) (endpoints : list Endpoint)
  : string :=
  let weave_init :=
    if wandb_enabled then text weave_init_lines else EmptyString in
  text flask_prelude ++ weave_init ++ text flask_helpers ++
  cat (map route_code endpoints) ++
  text health_head ++
  cat (map (health_entry (List.length endpoints)) (enumerate endpoints)) ++
  text health_tail.

(** The text written to [Dockerfile] *)
Definition dockerfile_content : string := text dockerfile_lines.

(** One line of the environment table *)
Definition env_line (kv : string * string) : string :=
  "  " ++ fst kv ++ " = " ++ dq ++ snd kv ++ dq ++ nl.

(** The entries of [regular_env] that reach the table: all but [PORT],
    which the table already sets. *)
Definition env_entries (regular_env : dict) : dict :=
  filter (fun kv => negb (in_list (upper (fst kv)) ["PORT"])) regular_env.

Definition env_section (regular_env : dict) : string :=
  fold_left
    (fun (acc : string) (kv : string * string) =>
       if negb (in_list (upper (fst kv)) ["PORT"])
       then acc ++ env_line kv else acc)
    regular_env ("  PORT = " ++ dq ++ "5000" ++ dq ++ nl).

(** The text written to [fly.toml] *)
Definition fly_toml_content (original_name : string) (env_vars : dict)
  : string :=
  let app_name := replace "_" "-" original_name in
  let '(secrets, regular_env) := _categorize_env_vars env_vars in
  text (fly_toml_head app_name) ++ env_section regular_env ++
  text fly_toml_tail.

(** One staging command of the deployment script *)
Definition stage_line (kv : string * string) : string :=
  let escaped_value := replace "'" ("'" ++ dq ++ "'" ++ dq ++ "'") (snd kv) in
  "flyctl secrets set " ++ fst kv ++ "='" ++ escaped_value ++ "' --stage" ++ nl.

(** The text written to [deploy-with-secrets.sh] *)
Definition deployment_script_content (env_vars : dict) : string :=
  let '(secrets, _) := _categorize_env_vars env_vars in
  let script_content :=
    fold_left (fun acc kv => acc ++ stage_line kv) secrets (text script_header) in
  match secrets with
  | _ :: _ => script_content ++ text script_footer_secrets
  | [] => script_content ++ text script_footer_plain
  end.

(* ================================================================== *)
(** ** [builder.py]: the [GetMeThatDawgBuilder] class *)

Record Builder : Type := mkBuilder {
  source_file : Path;
  output_dir : string;
  original_name : string;
  auto_detect : bool;
  endpoints : list Endpoint;
  auto_detected_endpoints : list AutoDetectedEndpoint;
  wandb_enabled : bool
}.

Definition with_endpoints (es : list Endpoint) (self : Builder) : Builder :=
  mkBuilder (source_file self) (output_dir self) (original_name self)
            (auto_detect self) es (auto_detected_endpoints self)
            (wandb_enabled self).

Definition with_auto_detected (a : list AutoDetectedEndpoint) (self : Builder)
  : Builder :=
  mkBuilder (source_file self) (output_dir self) (original_name self)
            (auto_detect self) (endpoints self) a (wandb_enabled self).

Definition with_wandb (b : bool) (self : Builder) : Builder :=
  mkBuilder (source_file self) (output_dir self) (original_name self)
            (auto_detect self) (endpoints self) (auto_detected_endpoints self) b.

(** [self.output_dir / file_name] *)
Definition out (self : Builder) (file_name : string) : Path :=
  mkPath (output_dir self) file_name.

Definition weave_note : string := "  # 🐝 Added by getmethatdawg for observability".

Definition weave_import_line : string := "import weave" ++ weave_note ++ nl.

Definition no_endpoints_message : string :=
  "No endpoints found! Make sure to use @getmethatdawg.expose decorator or enable auto-detection with --auto-detect.".

Section Builder.

(** What Python does with a source text.
    - [ast_parse]: the tree of [ast.parse], [None] for a [SyntaxError];
    - [module_body]: what running the module does once it compiled, as far
      as the builder can tell: its uses of the [expose] decorator, in order,
      and the exception it ends with, if any;
    - [json_str]: the JSON form of a string, as [json.dump] writes it. *)
Variable ast_parse : string -> option node.
Variable module_body : string -> list ExposeCall * option exn.
Variable json_str : string -> string.

(** The loop of [_read_env_file]: the first path that exists is read.
    A file that exists can be read, so the [except] branch of the loop,
    which goes on to the next path, is never taken here. *)
Fixpoint read_first_env (search_paths : list Path) : M dict :=
  match search_paths with
  | [] => ret []
  | env_path :: rest =>
      e <- path_exists env_path ;;
      if e then
        content <- read_text env_path ;;
        ret (read_env_text content)
      else read_first_env rest
  end.

Definition _read_env_file (self : Builder) : M dict :=
  here <- getcwd ;;
  let search_paths :=
    [ mkPath "/tmp" ".env";
      mkPath (dir (source_file self)) ".env";
      mkPath "." ".env";
      mkPath here ".env" ] in
  read_first_env search_paths.

Definition _is_wandb_enabled (self : Builder) : M bool :=
  env_vars <- _read_env_file self ;;
  from_env <- getenv "WANDB_API_KEY" ;;
  ret (truthy_opt (dict_get "WANDB_API_KEY" env_vars) || truthy_opt from_env).

(** [GetMeThatDawgBuilder(source_file, output_dir, original_name, auto_detect)] *)
Definition Builder_init (source_file : Path) (output_dir : string)
    (original_name : option string) (auto_detect : bool) : M Builder :=
  let self :=
    mkBuilder source_file output_dir
      (match original_name with
       | Some n => if truthy n then n else stem (name source_file)
       | None => stem (name source_file)
       end)
      auto_detect [] [] false in
  enabled <- _is_wandb_enabled self ;;
  mkdir output_dir ;;
  ret (with_wandb enabled self).

Definition auto_detect_endpoints (self : Builder) : M Builder :=
  source_code <- read_text (source_file self) ;;
  match ast_parse source_code with
  | None => ret self
  | Some tree =>
      ret (with_auto_detected
             (auto_detected_endpoints self ++ detect tree)%list self)
  end.

(** [spec.loader.exec_module(module)]: the file is read and compiled,
    then its body runs. *)
Definition exec_module (self : Builder) : M unit :=
  source_code <- read_text (source_file self) ;;
  match ast_parse source_code with
  | None => raise SyntaxError
  | Some _ =>
      let '(calls, failure) := module_body source_code in
      update_registry (fun r => fold_left (fun r c => expose c r) calls r) ;;
      match failure with
      | Some e => raise e
      | None => ret tt
      end
  end.

Definition analyze_source (self : Builder) : M Builder :=
  if auto_detect self then
    self <- auto_detect_endpoints self ;;
    ret (with_endpoints
           (endpoints self ++ map to_endpoint (auto_detected_endpoints self))%list
           self)
  else
    (* [spec_from_file_location] picks the loader by the file suffix; of
       the suffixes it knows, the one of source files is modelled *)
    if negb (endswith (name (source_file self)) ".py") then
      raise (RuntimeError
               ("Could not load module from " ++ dir (source_file self) ++ "/" ++
                name (source_file self)))
    else
      exec_module self ;;
      registered <- read_registry ;;
      let self := with_endpoints registered self in
      match endpoints self with
      | [] => raise (RuntimeError no_endpoints_message)
      | _ :: _ => ret self
      end.

(** The lines that [copy_source_file] writes for one line of the source. *)
Definition copy_line (self : Builder) (line : string) : list string :=
  if negb (auto_detect self) &&
     (contains "import getmethatdawg" line || contains "from getmethatdawg" line)
  then []
  else if negb (auto_detect self) &&
          startswith (strip line) "@getmethatdawg.expose"
  then []
  else
    let decorator :=
      if wandb_enabled self && startswith (strip line) "def " &&
         negb (startswith (strip line) "def _") &&
         negb (startswith (strip line) "def __")
      then
        let def_name := replace "def " EmptyString (before "(" (strip line)) in
        let is_endpoint :=
          existsb (fun e => String.eqb (ad_func_name e) def_name)
                  (auto_detected_endpoints self) ||
          existsb (fun e => String.eqb (func_name e) def_name)
                  (endpoints self) in
        if is_endpoint then
          let indent := String.length line - String.length (lstrip line) in
          [spaces indent ++ "@weave.op()" ++ weave_note ++ nl]
        else []
      else [] in
    (decorator ++ [line])%list.

Definition copy_source_file (self : Builder) : M Path :=
  let dest_path := out self "user_module.py" in
  content <- read_text (source_file self) ;;
  let lines := readlines content in
  let processed_lines :=
    ((if wandb_enabled self then [weave_import_line] else []) ++
     flat_map (copy_line self) lines)%list in
  write_text dest_path (cat processed_lines) ;;
  ret dest_path.

Definition generate_flask_app (self : Builder) : M Path :=
  let flask_app_path := out self "flask_app.py" in
  write_text flask_app_path
    (flask_app_text (wandb_enabled self) (endpoints self)) ;;
  ret flask_app_path.

Definition generate_dockerfile (self : Builder) : M Path :=
  let dockerfile_path := out self "Dockerfile" in
  write_text dockerfile_path dockerfile_content ;;
  ret dockerfile_path.

(** The package name of a requirement line *)
Definition package_of (line : string) : string :=
  strip (lower (before "<" (before "==" (before ">=" line)))).

(** The text of [requirements.txt] made from a custom one *)
Definition augment_requirements (wandb_enabled : bool) (custom_reqs : string)
  : string :=
  let essential_reqs :=
    (["flask>=2.0.0"; "gunicorn>=20.0.0"] ++
     (if wandb_enabled then ["weave"] else []))%list in
  let lines := split_nl (strip custom_reqs) in
  let existing_packages :=
    map package_of
        (filter (fun line => truthy (strip line) &&
                             negb (startswith (strip line) "#")) lines) in
  fold_left
    (fun (reqs : string) (req : string) =>
       let package_name := lower (before ">=" req) in
       if in_list package_name existing_packages then reqs
       else reqs ++ nl ++ req)
    essential_reqs custom_reqs.

Fixpoint first_existing (paths : list Path) : M (option Path) :=
  match paths with
  | [] => ret None
  | p :: rest =>
      e <- path_exists p ;;
      if e then ret (Some p) else first_existing rest
  end.

Definition generate_requirements (self : Builder) : M Path :=
  let possible_requirements_paths :=
    [ mkPath "/tmp" "requirements.txt";
      mkPath (dir (source_file self)) "requirements.txt" ] in
  let requirements_path := out self "requirements.txt" in
  custom_requirements_path <- first_existing possible_requirements_paths ;;
  match custom_requirements_path with
  | Some p =>
      custom_reqs <- read_text p ;;
      write_text requirements_path
        (augment_requirements (wandb_enabled self) custom_reqs) ;;
      ret requirements_path
  | None =>
      let requirements :=
        (["flask>=2.0.0"; "gunicorn>=20.0.0"] ++
         (if wandb_enabled self then ["weave"] else []))%list in
      write_text requirements_path (join nl requirements) ;;
      ret requirements_path
  end.

(** [json.dump(secrets_data, f, indent=2)] for a non-empty [secrets] *)
Definition secrets_json (secrets : dict) : string :=
  "{" ++ nl ++
  "  " ++ json_str "secrets" ++ ": {" ++ nl ++
  join ("," ++ nl)
       (map (fun kv => "    " ++ json_str (fst kv) ++ ": " ++ json_str (snd kv))
            secrets) ++ nl ++
  "  }," ++ nl ++
  "  " ++ json_str "instructions" ++ ": " ++
  json_str "Run 'flyctl secrets set' for each secret listed above" ++ nl ++
  "}".

Definition generate_secrets_file (self : Builder) (env_vars : dict)
  : M (option Path) :=
  let '(secrets, _) := _categorize_env_vars env_vars in
  match secrets with
  | [] => ret None
  | _ :: _ =>
      let secrets_file := out self "secrets.json" in
      write_text secrets_file (secrets_json secrets) ;;
      ret (Some secrets_file)
  end.

Definition generate_deployment_script (self : Builder) (env_vars : dict)
  : M Path :=
  let script_path := out self "deploy-with-secrets.sh" in
  write_text script_path (deployment_script_content env_vars) ;;
  chmod_exec script_path ;;
  ret script_path.

Definition generate_fly_toml (self : Builder) : M Path :=
  env_vars <- _read_env_file self ;;
  secrets_file_path <- generate_secrets_file self env_vars ;;
  deployment_script_path <- generate_deployment_script self env_vars ;;
  let fly_toml_path := out self "fly.toml" in
  write_text fly_toml_path (fly_toml_content (original_name self) env_vars) ;;
  ret fly_toml_path.

(** [build]: the builder after the analysis is returned with the
    output directory.  The last test of [build], whether
    [deploy-with-secrets.sh] exists, only chooses what is printed. *)
Definition build (self : Builder) : M (Builder * string) :=
  self <- analyze_source self ;;
  copy_source_file self ;;
  generate_flask_app self ;;
  generate_dockerfile self ;;
  generate_requirements self ;;
  generate_fly_toml self ;;
  ret (self, output_dir self).

(** What [main] runs: a new builder, then its [build]. *)
Definition run (source_file : Path) (output_dir : string)
    (original_name : option string) (auto_detect : bool)
  : M (Builder * string) :=
  builder <- Builder_init source_file output_dir original_name auto_detect ;;
  build builder.

End Builder.

(* ================================================================== *)
(** ** Notions used in the statements, and sample inputs *)

(** A module with functions defined inside another one, and a
    top-level function that a skip pattern excludes. *)
Definition nested_text : string :=
  text [ "def fetch(source, target):";
         "    def get_item(key):";
         "        return key";
         "    def get_price(key):";
         "        return key";
         "    return get_item(source), get_price(target)";
         EmptyString;
         "def main():";
         "    pass" ].

Definition nested_module : node :=
  Other [ FunctionDef "fetch" ["source"; "target"] None
            [ FunctionDef "get_item" ["key"] None [Other []];
              FunctionDef "get_price" ["key"] None [Other []];
              Other [] ];
          FunctionDef "main" [] None [Other []] ].

Definition def_name (n : node) : list string :=
  match n with
  | FunctionDef nm _ _ _ => [nm]
  | _ => []
  end.




Definition secret_entry (kv : string * string) : bool := is_secret (fst kv).
Definition public_entry (kv : string * string) : bool :=
  negb (is_secret (fst kv)).

(** The [(method, path)] pairs of an endpoint list *)
Definition routes (es : list Endpoint) : list (string * string) :=
  map (fun e => (method e, path e)) es.

(** The paths that [_read_env_file] tries, in order *)
Definition env_search_paths (source_file : Path) (here : string) : list Path :=
  [ mkPath "/tmp" ".env";
    mkPath (dir source_file) ".env";
    mkPath "." ".env";
    mkPath here ".env" ].

(** The configuration of the first path that exists *)
Fixpoint first_env (w : World) (search_paths : list Path) : dict :=
  match search_paths with
  | [] => []
  | env_path :: rest =>
      match fs_lookup (resolve w env_path) (files w) with
      | Some content => read_env_text content
      | None => first_env w rest
      end
  end.

(** The configuration mapping that a build of [source_file] reads in [w] *)
Definition env_of (source_file : Path) (w : World) : dict :=
  first_env w (env_search_paths source_file (cwd w)).

(** Whether observability is on for a build of [source_file] in [w] *)
Definition wandb_of (source_file : Path) (w : World) : bool :=
  truthy_opt (dict_get "WANDB_API_KEY" (env_of source_file w)) ||
  truthy_opt (dict_get "WANDB_API_KEY" (environ w)).

(** The content of a file of the output directory *)
Definition output (w : World) (output_dir file_name : string) : option string :=
  fs_lookup (resolve w (mkPath output_dir file_name)) (files w).


(** The builder that [Builder_init] makes in [w] *)
Definition new_builder (source_file : Path) (output_dir : string)
    (original_name : option string) (auto_detect : bool) (w : World) : Builder :=
  mkBuilder source_file output_dir
    (match original_name with
     | Some n => if truthy n then n else stem (name source_file)
     | None => stem (name source_file)
     end)
    auto_detect [] [] (wandb_of source_file w).

(** [w'] is [w] but for the registry, the directories, the executable
    bits, and the files of the given names. *)
Definition wrote_only (names : list string) (w w' : World) : Prop :=
  cwd w' = cwd w /\ environ w' = environ w /\
  forall q, ~ In (name q) names -> fs_lookup q (files w') = fs_lookup q (files w).

(** The names of the files that a build writes *)
Definition artifact_names : list string :=
  [ "user_module.py"; "flask_app.py"; "Dockerfile"; "requirements.txt";
    "secrets.json"; "deploy-with-secrets.sh"; "fly.toml" ].


(** *** Sample inputs *)

Definition sample_source : Path := mkPath "/src" "agent.py".

(** A process that starts in [/work], with the source and, when given,
    a [.env] file next to it; the registry is empty. *)
Definition sample_world (source_text : string) (env_text : option string)
  : World :=
  mkWorld
    ((sample_source, source_text) ::
     match env_text with
     | Some e => [(mkPath "/src" ".env", e)]
     | None => []
     end)
    [] [] [] "/work" [].

Definition json_quote (s : string) : string := dq ++ s ++ dq.

(** Two functions whose names differ by case only *)
Definition alias_module : node :=
  Other [ FunctionDef "get_user" ["id"] None [Other []];
          FunctionDef "Get_User" ["id"] None [Other []] ].


(** One function exposed once *)
Definition hello_text : string :=
  text [ "import getmethatdawg";
         EmptyString;
         "@getmethatdawg.expose(method='GET', path='/hello')";
         "def greet(name):";
         "    return {}" ].

Definition hello_module : node :=
  Other [ Other []; FunctionDef "greet" ["name"] None [Other []] ].

Definition hello_calls : list ExposeCall :=
  [ mkExpose "GET" (Some "/hello") None "greet" ].

(** The endpoints that a run ended with, when it succeeded *)
Definition endpoints_of (r : res (Builder * string) * World) : list Endpoint :=
  match fst r with
  | Ok (b, _) => endpoints b
  | Raise _ => []
  end.

Definition succeeded {A : Type} (r : res A * World) : bool :=
  match fst r with
  | Ok _ => true
  | Raise _ => false
  end.

(** Python on sample texts: [parses_to text tree] parses [text] to [tree]
    and rejects any other text; [runs_as text calls] runs [text] as these
    uses of the decorator, without an exception. *)
Definition parses_to (source_text : string) (tree : node)
  : string -> option node :=
  fun s => if String.eqb s source_text then Some tree else None.

Definition runs_as (source_text : string) (calls : list ExposeCall)
  : string -> list ExposeCall * option exn :=
  fun s => if String.eqb s source_text then (calls, None) else ([], None).

Definition alias_text : string :=
  text [ "def get_user(id):";
         "    return {}";
         EmptyString;
         "def Get_User(id):";
         "    return {}" ].







(* ================================================================== *)
(** ** [builder.py]: the entry point [main] *)

(** The body of the loop of [main] over [sys.argv[2:]], on
    [(original_name, auto_detect)] *)
Definition parse_step (st : option string * bool) (arg : string)
  : option string * bool :=
  let '(original_name, auto_detect) := st in
  if String.eqb arg "--auto-detect" then (original_name, true)
  else if negb (truthy_opt original_name) then (Some arg, auto_detect)
  else (original_name, auto_detect).

Definition parse_args (args : list string) : option string * bool :=
  fold_left parse_step args (None, false).

Section Main.

Variable ast_parse : string -> option node.
Variable module_body : string -> list ExposeCall * option exn.
Variable json_str : string -> string.

(** [to_path]: the path that [pathlib] and [os.path] read in a string. *)
Variable to_path : string -> Path.


End Main.

(* ================================================================== *)
(** ** Notions used in the further statements *)


(** How the shell reads a word made of quoted pieces: inside single
    quotes and inside double quotes every character stands for itself
    (as long as the double quotes hold no dollar, backquote or backslash).
    [q] is the quote that is open, if any. *)
Fixpoint sh_unquote (q : option ascii) (s : string) : string :=
  match s with
  | EmptyString => EmptyString
  | String c s' =>
      match q with
      | Some o =>
          if Ascii.eqb c o then sh_unquote None s'
          else String c (sh_unquote q s')
      | None =>
          if Ascii.eqb c "'" || Ascii.eqb c (ascii_of_nat 34)
          then sh_unquote (Some c) s'
          else String c (sh_unquote None s')
      end
  end.

(** The value as [stage_line] writes it between single quotes *)
Definition escaped_value (value : string) : string :=
  replace "'" ("'" ++ dq ++ "'" ++ dq ++ "'") value.




(** The package names that [augment_requirements] finds in a text *)
Definition existing_packages (custom_reqs : string) : list string :=
  map package_of
      (filter (fun line => truthy (strip line) &&
                           negb (startswith (strip line) "#"))
              (split_nl (strip custom_reqs))).

Definition essential_reqs (wandb_enabled : bool) : list string :=
  (["flask>=2.0.0"; "gunicorn>=20.0.0"] ++
   (if wandb_enabled then ["weave"] else []))%list.


(** One element of the health-check list, without comma and newline *)
Definition health_item (e : Endpoint) : string :=
  "            {" ++ dq ++ "method" ++ dq ++ ": " ++ dq ++ method e ++ dq ++
  ", " ++ dq ++ "path" ++ dq ++ ": " ++ dq ++ path e ++ dq ++ "}".






(** The nodes two levels below a node *)
Definition grandchildren_of (n : node) : list node :=
  flat_map children_of (children_of n).











(** An argument of [main] that can name the application *)
Definition names_app (arg : string) : bool :=
  negb (String.eqb arg "--auto-detect") && truthy arg.


(* ================================================================== *)
(** * Properties *)

(** ** Strings *)

Example lower_ex : lower "Get_User" = "get_user".
Proof. reflexivity. Qed.
Example replace_ex : replace "_" "-" "a_b__c" = "a-b--c".
Proof. reflexivity. Qed.
Example replace_ex2 : replace "def " "" "def foo" = "foo".
Proof. reflexivity. Qed.
Example strip_ex : strip "  a b  " = "a b".
Proof. reflexivity. Qed.
Example readlines_ex : readlines ("a=1" ++ nl ++ "b") = ["a=1" ++ nl; "b"].
Proof. reflexivity. Qed.
Example split_nl_ex : split_nl ("a" ++ nl ++ "b" ++ nl) = ["a"; "b"; ""].
Proof. reflexivity. Qed.
Example utf8_ex : String.length "✅" = 3.
Proof. reflexivity. Qed.
Example contains_ex : contains "API_KEY" (upper "openai_api_key") = true.
Proof. reflexivity. Qed.
Example helper_excluded :
  detect (Other [FunctionDef "_helper" [] None []]) = [].
Proof. reflexivity. Qed.
Example sensitive_line :
  deployment_script_content (read_env_text (text ["OPENAI_API_KEY=sk-abc"])) =
  text script_header ++
  ("flyctl secrets set OPENAI_API_KEY='sk-abc' --stage" ++ nl) ++
  text script_footer_secrets.
Proof. reflexivity. Qed.




Lemma in_list_spec (s : string) (l : list string) :
  in_list s l = true <-> In s l.
Proof.
  unfold in_list. rewrite existsb_exists. split.
  - intros [x [Hx He]]. apply String.eqb_eq in He. now subst.
  - intros H. exists s. split; [assumption | apply String.eqb_refl].
Qed.

Lemma in_list_false (s : string) (l : list string) :
  in_list s l = false <-> ~ In s l.
Proof.
  rewrite <- in_list_spec. destruct (in_list s l); split; congruence.
Qed.

(** Replacing one character by another is a map over the characters. *)
Lemma replace_one_char (a b : ascii) (s : string) :
  replace (String a EmptyString) (String b EmptyString) s =
  map_str (fun c => if Ascii.eqb c a then b else c) s.
Proof.
  unfold replace. induction s as [|c s IH]; [reflexivity|].
  cbn [replace_go map_str prefix String.length Nat.sub].
  rewrite (Ascii.eqb_sym c a).
  destruct (ascii_dec a c) as [->|Hac].
  - rewrite Ascii.eqb_refl.
    assert (Hp : prefix EmptyString s = true) by (destruct s; reflexivity).
    rewrite Hp. simpl. now rewrite IH.
  - apply Ascii.eqb_neq in Hac. rewrite Hac.
    destruct (ascii_dec a c); [subst; rewrite Ascii.eqb_refl in Hac; discriminate|].
    now rewrite IH.
Qed.




(** ** Dictionaries *)

Lemma dict_set_fresh (k v : string) (d : dict) :
  ~ In k (keys d) -> dict_set k v d = (d ++ [(k, v)])%list.
Proof.
  induction d as [|[k' v'] d IH]; simpl; intros Hk; [reflexivity|].
  destruct (String.eqb_spec k' k) as [->|Hne].
  - exfalso. apply Hk. now left.
  - rewrite IH; [reflexivity|]. intros Hin. apply Hk. now right.
Qed.






Lemma categorize_from (env secrets regular : dict) :
  NoDup (keys env) ->
  (forall k, In k (keys env) -> ~ In k (keys secrets)) ->
  (forall k, In k (keys env) -> ~ In k (keys regular)) ->
  fold_left
    (fun (acc : dict * dict) (kv : string * string) =>
       let '(secrets, regular_env) := acc in
       let '(key, value) := kv in
       if is_secret key
       then (dict_set key value secrets, regular_env)
       else (secrets, dict_set key value regular_env))
    env (secrets, regular) =
  ((secrets ++ filter secret_entry env)%list,
   (regular ++ filter public_entry env)%list).
Proof.
  revert secrets regular.
  induction env as [|[k v] env IH]; intros secrets regular Hnd Hs Hr.
  - simpl. now rewrite !app_nil_r.
  - cbn [fold_left].
    cbn [keys map fst] in Hnd, Hs, Hr. fold (keys env) in Hnd, Hs, Hr.
    inversion Hnd as [|? ? Hk Hnd']; subst.
    destruct (is_secret k) eqn:E; cbn [negb].
    + rewrite dict_set_fresh by (apply Hs; now left).
      rewrite IH; [cbn [filter]; unfold secret_entry, public_entry; cbn [fst];
                  rewrite E; cbn [negb]; rewrite <- app_assoc; reflexivity
                 | assumption | | ].
      * intros x Hx Hin. unfold keys in Hin. rewrite map_app in Hin.
        apply in_app_or in Hin as [Hin|[<-|[]]];
          [apply (Hs x); [now right | exact Hin] | contradiction].
      * intros x Hx. apply Hr. now right.
    + rewrite dict_set_fresh by (apply Hr; now left).
      rewrite IH; [cbn [filter]; unfold secret_entry, public_entry; cbn [fst];
                  rewrite E; cbn [negb]; rewrite <- app_assoc; reflexivity
                 | assumption | | ].
      * intros x Hx. apply Hs. now right.
      * intros x Hx Hin. unfold keys in Hin. rewrite map_app in Hin.
        apply in_app_or in Hin as [Hin|[<-|[]]];
          [apply (Hr x); [now right | exact Hin] | contradiction].
Qed.

(** On a well-formed dictionary the partition is a pair of filters. *)
Lemma categorize_filter (env_vars : dict) :
  wf env_vars ->
  _categorize_env_vars env_vars =
  (filter secret_entry env_vars, filter public_entry env_vars).
Proof.
  intros Hwf. unfold _categorize_env_vars.
  rewrite categorize_from; auto.
Qed.

(** ** The breadth-first walk *)

Lemma size_children (n : node) : size n = S (sizes (children_of n)).
Proof. destruct n; reflexivity. Qed.


Lemma walk_queue_sound (fuel : nat) (todo : list node) (x : node) :
  In x (walk_queue fuel todo) -> exists r, In r todo /\ within x r.
Proof.
  revert todo; induction fuel as [|fuel IH]; intros todo; simpl; [intros []|].
  destruct todo as [|n rest]; [intros []|].
  intros [<-|Hin].
  - exists n. split; [now left | constructor].
  - apply IH in Hin as [r [Hr Hx]]. apply in_app_or in Hr as [Hr|Hr].
    + exists r. split; [now right | assumption].
    + exists n. split; [now left | now apply within_child with r].
Qed.




Lemma filter_map_In {A B : Type} (f : A -> option B) (l : list A) (y : B) :
  In y (filter_map f l) <-> exists x, In x l /\ f x = Some y.
Proof.
  induction l as [|a l IH]; simpl.
  - split; [intros [] | intros [x [[] _]]].
  - destruct (f a) eqn:E; simpl; rewrite IH; split.
    + intros [<-|[x [Hx Hf]]]; [exists a; auto | exists x; auto].
    + intros [x [[<-|Hx] Hf]]; [left; congruence | right; exists x; auto].
    + intros [x [Hx Hf]]. exists x; auto.
    + intros [x [[<-|Hx] Hf]]; [congruence | exists x; auto].
Qed.

Lemma append_assoc (a b c : string) : (a ++ b) ++ c = a ++ b ++ c.
Proof. induction a as [|x a IH]; simpl; [reflexivity | now rewrite IH]. Qed.

Lemma append_nil_r (a : string) : a ++ EmptyString = a.
Proof. induction a as [|x a IH]; simpl; [reflexivity | now rewrite IH]. Qed.

(** ** The heuristic classifier *)








(** ** The configuration partition *)

Lemma classify_sensitive (key : string) :
  classify key = Sensitive <-> is_secret key = true.
Proof. unfold classify. destruct (is_secret key); split; congruence. Qed.

Lemma classify_public (key : string) :
  classify key = Public <-> is_secret key = false.
Proof. unfold classify. destruct (is_secret key); split; congruence. Qed.




(** ** The deployment manifest *)

Lemma env_section_from (regular_env : dict) (acc : string) :
  fold_left
    (fun (acc : string) (kv : string * string) =>
       if negb (in_list (upper (fst kv)) ["PORT"])
       then acc ++ env_line kv else acc)
    regular_env acc =
  acc ++ cat (map env_line (env_entries regular_env)).
Proof.
  revert acc; induction regular_env as [|kv d IH]; intros acc.
  - simpl. now rewrite append_nil_r.
  - cbn [fold_left env_entries filter].
    destruct (negb (in_list (upper (fst kv)) ["PORT"])).
    + rewrite IH. fold (env_entries d). cbn [map cat]. now rewrite append_assoc.
    + rewrite IH. reflexivity.
Qed.

(** The environment table is the [PORT] line and then one line per
    entry of [env_entries]. *)
Lemma env_section_lines (regular_env : dict) :
  env_section regular_env =
  ("  PORT = " ++ dq ++ "5000" ++ dq ++ nl) ++
  cat (map env_line (env_entries regular_env)).
Proof. unfold env_section. apply env_section_from. Qed.

(** C3, as the code has it. The environment table of [fly.toml] is the
    fixed [PORT] line followed by one line per Public entry whose
    uppercased key is not [PORT]; no Sensitive key is in the table, and
    every Public entry other than [PORT] is. *)
Theorem manifest_env_table (original_name : string) (env_vars : dict)
    (Hwf : wf env_vars) :
  let regular_env := snd (_categorize_env_vars env_vars) in
  fly_toml_content original_name env_vars =
    text (fly_toml_head (replace "_" "-" original_name)) ++
    (("  PORT = " ++ dq ++ "5000" ++ dq ++ nl) ++
     cat (map env_line (env_entries regular_env))) ++
    text fly_toml_tail /\
  (forall key value,
      In (key, value) env_vars -> classify key = Sensitive ->
      ~ In key (keys (env_entries regular_env))) /\
  (forall key value,
      In (key, value) env_vars -> classify key = Public ->
      upper key <> "PORT" -> In (key, value) (env_entries regular_env)) /\
  (forall key value,
      In (key, value) (env_entries regular_env) ->
      In (key, value) env_vars /\ classify key = Public /\ upper key <> "PORT").
Proof.
  intros regular_env. subst regular_env. unfold fly_toml_content.
  rewrite (categorize_filter env_vars Hwf). cbn [snd].
  rewrite env_section_lines.
  split; [reflexivity|].
  assert (Hport : forall k, in_list (upper k) ["PORT"] = false <-> upper k <> "PORT").
  { intros k. rewrite in_list_false. simpl. intuition congruence. }
  split; [|split].
  - intros key value _ Hs Hk. apply classify_sensitive in Hs.
    unfold env_entries, keys in Hk. apply in_map_iff in Hk as [[k v] [Ek Hk]].
    apply filter_In in Hk as [Hk _]. apply filter_In in Hk as [_ Hp].
    unfold public_entry in Hp. simpl in Ek, Hp. subst k.
    rewrite Hs in Hp. discriminate.
  - intros key value Hin Hp Hk. apply classify_public in Hp.
    unfold env_entries. apply filter_In. split.
    + apply filter_In. split; [assumption|].
      unfold public_entry. simpl. now rewrite Hp.
    + simpl fst. apply negb_true_iff, Hport. exact Hk.
  - intros key value Hin. unfold env_entries in Hin.
    apply filter_In in Hin as [Hin Hk]. apply filter_In in Hin as [Hin Hp].
    unfold public_entry in Hp. simpl in Hp, Hk.
    split; [assumption|]. split.
    + apply classify_public. now apply negb_true_iff.
    + apply Hport. now apply negb_true_iff.
Qed.

Lemma manifest_env_table_witness :
  In ("NAME", "dawg")
     (env_entries (snd (_categorize_env_vars
                          [("NAME", "dawg"); ("OPENAI_API_KEY", "sk-abc")]))) /\
  ~ In "OPENAI_API_KEY"
       (keys (env_entries (snd (_categorize_env_vars
                          [("NAME", "dawg"); ("OPENAI_API_KEY", "sk-abc")])))).
Proof.
  assert (Hwf : wf [("NAME", "dawg"); ("OPENAI_API_KEY", "sk-abc")]).
  { unfold wf. simpl. repeat constructor; simpl; intuition discriminate. }
  destruct (manifest_env_table "my_agent" _ Hwf) as (_ & Hs & Hp & _).
  split.
  - apply Hp; [now left | reflexivity | discriminate].
  - apply (Hs _ "sk-abc"); [right; now left | reflexivity].
Defined.

(** C3 as stated fails: [PORT=8080] is Public, and the manifest is the
    one of an empty configuration. *)
Lemma manifest_omits_public_port :
  classify "PORT" = Public /\
  _categorize_env_vars [("PORT", "8080")] = ([], [("PORT", "8080")]) /\
  env_entries (snd (_categorize_env_vars [("PORT", "8080")])) = [] /\
  fly_toml_content "app" [("PORT", "8080")] = fly_toml_content "app" [] /\
  contains "8080" (fly_toml_content "app" [("PORT", "8080")]) = false.
Proof. repeat split; vm_compute; reflexivity. Qed.

(** ** The configuration source *)








(** ** Files *)

Lemma path_eqb_refl (p : Path) : path_eqb p p = true.
Proof. unfold path_eqb. now rewrite !String.eqb_refl. Qed.

Lemma path_eqb_names (p q : Path) : name p <> name q -> path_eqb p q = false.
Proof.
  intros H. unfold path_eqb. apply String.eqb_neq in H. rewrite H.
  apply andb_false_r.
Qed.

Lemma path_eqb_eq (p q : Path) : path_eqb p q = true -> p = q.
Proof.
  unfold path_eqb. intros H. apply andb_true_iff in H as [Hd Hn].
  apply String.eqb_eq in Hd, Hn. destruct p, q. simpl in *. congruence.
Qed.

Lemma fs_lookup_update_same (p : Path) (c : string) (f : fs) :
  fs_lookup p (fs_update p c f) = Some c.
Proof.
  induction f as [|[q c'] f IH]; simpl.
  - now rewrite path_eqb_refl.
  - destruct (path_eqb q p) eqn:E; simpl; rewrite E; [reflexivity | exact IH].
Qed.

Lemma fs_lookup_update_other (p q : Path) (c : string) (f : fs) :
  path_eqb p q = false -> fs_lookup q (fs_update p c f) = fs_lookup q f.
Proof.
  intros Hpq. induction f as [|[r c'] f IH]; simpl.
  - now rewrite Hpq.
  - destruct (path_eqb r p) eqn:E; simpl.
    + apply path_eqb_eq in E. subst r. now rewrite Hpq.
    + now rewrite IH.
Qed.

Lemma resolve_name (w : World) (p : Path) : name (resolve w p) = name p.
Proof. unfold resolve. now destruct (String.eqb (dir p) "."). Qed.

Lemma resolve_cwd (w1 w2 : World) (p : Path) :
  cwd w1 = cwd w2 -> resolve w1 p = resolve w2 p.
Proof. unfold resolve. now intros ->. Qed.

(** A write leaves the files of another name as they are. *)
Lemma lookup_after_write (w w' : World) (p q : Path) (c : string) (f : fs) :
  name p <> name q ->
  fs_lookup (resolve w q) (fs_update (resolve w' p) c f) =
  fs_lookup (resolve w q) f.
Proof.
  intros H. apply fs_lookup_update_other, path_eqb_names.
  now rewrite !resolve_name.
Qed.

(** ** Reading the configuration *)

Section BuilderFacts.

Variable ast_parse : string -> option node.
Variable module_body : string -> list ExposeCall * option exn.
Variable json_str : string -> string.

Lemma read_first_env_ok (search_paths : list Path) (w : World) :
  read_first_env search_paths w = (Ok (first_env w search_paths), w).
Proof.
  induction search_paths as [|p rest IH]; [reflexivity|].
  cbn [read_first_env first_env]. unfold bind, path_exists, read_text.
  destruct (fs_lookup (resolve w p) (files w)) eqn:E; cbv beta iota;
    [now rewrite E | exact IH].
Qed.

Lemma read_env_file_ok (self : Builder) (w : World) :
  _read_env_file self w = (Ok (env_of (source_file self) w), w).
Proof.
  unfold _read_env_file, bind, getcwd. apply read_first_env_ok.
Qed.


Lemma first_env_ext (w1 w2 : World) (search_paths : list Path) :
  (forall p, In p search_paths ->
             fs_lookup (resolve w1 p) (files w1) =
             fs_lookup (resolve w2 p) (files w2)) ->
  first_env w1 search_paths = first_env w2 search_paths.
Proof.
  induction search_paths as [|p rest IH]; intros H; [reflexivity|].
  simpl. rewrite (H p) by now left.
  destruct (fs_lookup (resolve w2 p) (files w2)); [reflexivity|].
  apply IH. intros q Hq. apply H. now right.
Qed.



(** A write under another name than [.env] does not change the
    configuration that is read. *)
Lemma env_of_after_write (sf p : Path) (c : string) (w : World) :
  name p <> ".env" ->
  env_of sf (with_files (fs_update (resolve w p) c (files w)) w) = env_of sf w.
Proof.
  intros Hn. unfold env_of. cbn [cwd with_files].
  apply first_env_ext. intros q Hq. cbn [files with_files].
  replace (resolve (with_files (fs_update (resolve w p) c (files w)) w) q)
    with (resolve w q) by reflexivity.
  apply lookup_after_write.
  destruct Hq as [<-|[<-|[<-|[<-|[]]]]]; exact Hn.
Qed.

End BuilderFacts.

(** ** The steps of a build *)

Lemma wrote_only_refl (names : list string) (w : World) : wrote_only names w w.
Proof. repeat split. Qed.

Lemma wrote_only_trans (n1 n2 : list string) (w1 w2 w3 : World) :
  wrote_only n1 w1 w2 -> wrote_only n2 w2 w3 ->
  wrote_only (n1 ++ n2) w1 w3.
Proof.
  intros (Hc1 & He1 & Hf1) (Hc2 & He2 & Hf2). repeat split; try congruence.
  intros q Hq. rewrite Hf2, Hf1; [reflexivity | |];
    intros H; apply Hq, in_or_app; auto.
Qed.

Lemma wrote_only_weaken (n1 n2 : list string) (w1 w2 : World) :
  incl n1 n2 -> wrote_only n1 w1 w2 -> wrote_only n2 w1 w2.
Proof.
  intros Hi (Hc & He & Hf). repeat split; try assumption.
  intros q Hq. apply Hf. intros H. apply Hq, Hi, H.
Qed.

Lemma write_text_wrote (p : Path) (c : string) (w : World) :
  exists w', write_text p c w = (Ok tt, w') /\
             wrote_only [name p] w w' /\
             registry w' = registry w /\
             fs_lookup (resolve w p) (files w') = Some c.
Proof.
  eexists. split; [reflexivity|]. cbn [files with_files registry].
  split; [|split; [reflexivity | apply fs_lookup_update_same]].
  repeat split. intros q Hq. cbn [files with_files].
  apply fs_lookup_update_other, path_eqb_names. rewrite resolve_name.
  intros H. apply Hq. now left.
Qed.

Lemma lookup_wrote_only (names : list string) (w w' : World) (p : Path) :
  wrote_only names w w' -> ~ In (name p) names ->
  fs_lookup (resolve w' p) (files w') = fs_lookup (resolve w p) (files w).
Proof.
  intros (Hc & _ & Hf) Hn. rewrite (resolve_cwd w' w) by assumption.
  apply Hf. now rewrite resolve_name.
Qed.

Lemma env_of_wrote_only (names : list string) (sf : Path) (w w' : World) :
  wrote_only names w w' -> ~ In ".env" names -> env_of sf w' = env_of sf w.
Proof.
  intros Hw Hn. unfold env_of. destruct Hw as (Hc & He & Hf). rewrite Hc.
  apply first_env_ext. intros p Hp.
  rewrite (resolve_cwd w' w) by assumption. apply Hf. rewrite resolve_name.
  destruct Hp as [<-|[<-|[<-|[<-|[]]]]]; exact Hn.
Qed.

Section Steps.

Variable ast_parse : string -> option node.
Variable module_body : string -> list ExposeCall * option exn.
Variable json_str : string -> string.


(** The analysis changes nothing but the registry, and keeps the
    settings of the builder. *)
Lemma analyze_source_frame (self self' : Builder) (w w' : World) :
  analyze_source ast_parse module_body self w = (Ok self', w') ->
  files w' = files w /\ wrote_only [] w w' /\
  source_file self' = source_file self /\ output_dir self' = output_dir self /\
  original_name self' = original_name self /\
  wandb_enabled self' = wandb_enabled self /\
  auto_detect self' = auto_detect self /\
  exists content,
    fs_lookup (resolve w (source_file self)) (files w) = Some content.
Proof.
  unfold analyze_source.
  destruct (auto_detect self) eqn:Ead.
  - cbv beta iota zeta delta [bind auto_detect_endpoints read_text ret].
    destruct (fs_lookup (resolve w (source_file self)) (files w)) as [c|];
      [|discriminate].
    destruct (ast_parse c); intros H; inversion H; subst;
      cbn; repeat split; try assumption; now exists c.
  - destruct (negb (endswith (name (source_file self)) ".py"));
      [discriminate|].
    cbv beta iota zeta delta [bind exec_module read_text ret raise].
    destruct (fs_lookup (resolve w (source_file self)) (files w)) as [c|];
      [|discriminate].
    destruct (ast_parse c); [|discriminate].
    destruct (module_body c) as [calls [e|]];
      cbv beta iota zeta delta [bind update_registry raise ret read_registry];
      [discriminate|].
    cbn [endpoints with_endpoints].
    match goal with
    | |- context [get_endpoints ?r] => destruct (get_endpoints r)
    end; [discriminate|].
    intros H; inversion H; subst; cbn; repeat split; try assumption.
    now exists c.
Qed.

Lemma copy_source_file_ok (self : Builder) (w : World) (content : string) :
  fs_lookup (resolve w (source_file self)) (files w) = Some content ->
  exists w', copy_source_file self w = (Ok (out self "user_module.py"), w') /\
             wrote_only ["user_module.py"] w w' /\ registry w' = registry w.
Proof.
  intros Hsrc. cbv beta iota zeta delta [copy_source_file bind read_text ret].
  rewrite Hsrc.
  destruct (write_text_wrote (out self "user_module.py")
              (cat ((if wandb_enabled self then [weave_import_line] else []) ++
                    flat_map (copy_line self) (readlines content))%list) w)
    as (w' & -> & Hw & Hr & _).
  exists w'. auto.
Qed.

Lemma generate_flask_app_ok (self : Builder) (w : World) :
  exists w', generate_flask_app self w = (Ok (out self "flask_app.py"), w') /\
             wrote_only ["flask_app.py"] w w' /\ registry w' = registry w /\
             fs_lookup (resolve w (out self "flask_app.py")) (files w') =
               Some (flask_app_text (wandb_enabled self) (endpoints self)).
Proof.
  cbv beta iota zeta delta [generate_flask_app bind ret].
  destruct (write_text_wrote (out self "flask_app.py")
              (flask_app_text (wandb_enabled self) (endpoints self)) w)
    as (w' & -> & Hw & Hr & Hl).
  exists w'. auto.
Qed.

Lemma generate_dockerfile_ok (self : Builder) (w : World) :
  exists w', generate_dockerfile self w = (Ok (out self "Dockerfile"), w') /\
             wrote_only ["Dockerfile"] w w' /\ registry w' = registry w /\
             fs_lookup (resolve w (out self "Dockerfile")) (files w') =
               Some dockerfile_content.
Proof.
  cbv beta iota zeta delta [generate_dockerfile bind ret].
  destruct (write_text_wrote (out self "Dockerfile") dockerfile_content w)
    as (w' & -> & Hw & Hr & Hl).
  exists w'. auto.
Qed.

Lemma first_existing_ok (paths : list Path) (w : World) :
  exists r, first_existing paths w = (Ok r, w) /\
            match r with
            | Some p => exists c, fs_lookup (resolve w p) (files w) = Some c
            | None => True
            end.
Proof.
  induction paths as [|p rest IH].
  - exists None. split; [reflexivity | exact I].
  - cbn [first_existing]. cbv beta iota zeta delta [bind path_exists ret].
    destruct (fs_lookup (resolve w p) (files w)) as [c|] eqn:E.
    + exists (Some p). split; [reflexivity | now exists c].
    + exact IH.
Qed.

Lemma generate_requirements_ok (self : Builder) (w : World) :
  exists w', generate_requirements self w =
               (Ok (out self "requirements.txt"), w') /\
             wrote_only ["requirements.txt"] w w' /\ registry w' = registry w.
Proof.
  unfold generate_requirements.
  match goal with
  | |- context [first_existing ?ps] =>
      destruct (first_existing_ok ps w) as (r & Hr & Hex)
  end.
  cbv beta iota zeta delta [bind]. rewrite Hr.
  destruct r as [p|].
  - destruct Hex as [c Hc]. cbv beta iota zeta delta [bind read_text ret].
    rewrite Hc.
    destruct (write_text_wrote (out self "requirements.txt")
                (augment_requirements (wandb_enabled self) c) w)
      as (w' & -> & Hw & Hg & _).
    exists w'. auto.
  - cbv beta iota zeta delta [bind ret].
    match goal with
    | |- context [write_text ?p ?c w] =>
        destruct (write_text_wrote p c w) as (w' & -> & Hw & Hg & _)
    end.
    exists w'. auto.
Qed.

(** The manifest stage: the script and the manifest are always written,
    the secrets file only when there is a secret. *)
Lemma generate_fly_toml_ok (self : Builder) (w : World) :
  let env_vars := env_of (source_file self) w in
  let secrets := fst (_categorize_env_vars env_vars) in
  exists w', generate_fly_toml json_str self w = (Ok (out self "fly.toml"), w') /\
    wrote_only ["secrets.json"; "deploy-with-secrets.sh"; "fly.toml"] w w' /\
    registry w' = registry w /\
    output w' (output_dir self) "fly.toml" =
      Some (fly_toml_content (original_name self) env_vars) /\
    output w' (output_dir self) "deploy-with-secrets.sh" =
      Some (deployment_script_content env_vars) /\
    output w' (output_dir self) "secrets.json" =
      match secrets with
      | [] => output w (output_dir self) "secrets.json"
      | _ :: _ => Some (secrets_json json_str secrets)
      end.
Proof.
  intros env_vars secrets.
  cbv beta iota zeta delta [generate_fly_toml bind]. rewrite read_env_file_ok.
  fold env_vars.
  assert (Hsec : exists w1 r,
             generate_secrets_file json_str self env_vars w = (Ok r, w1) /\
             wrote_only ["secrets.json"] w w1 /\ registry w1 = registry w /\
             fs_lookup (resolve w (out self "secrets.json")) (files w1) =
               match secrets with
               | [] => output w (output_dir self) "secrets.json"
               | _ :: _ => Some (secrets_json json_str secrets)
               end).
  { unfold generate_secrets_file. subst secrets.
    destruct (_categorize_env_vars env_vars) as [[|s ss] reg]; cbn [fst].
    - exists w, None. repeat split.
    - cbv beta iota zeta delta [bind ret].
      destruct (write_text_wrote (out self "secrets.json")
                  (secrets_json json_str (s :: ss)) w)
        as (w1 & -> & Hw & Hg & Hl).
      exists w1, (Some (out self "secrets.json")). auto. }
  destruct Hsec as (w1 & r & -> & Hw1 & Hg1 & Hl1).
  cbv beta iota zeta delta [generate_deployment_script bind ret].
  destruct (write_text_wrote (out self "deploy-with-secrets.sh")
              (deployment_script_content env_vars) w1)
    as (w2 & -> & Hw2 & Hg2 & Hl2).
  cbv beta iota zeta delta [chmod_exec].
  set (w3 := with_executables _ w2).
  assert (Hw3 : wrote_only [] w2 w3) by (repeat split).
  destruct (write_text_wrote (out self "fly.toml")
              (fly_toml_content (original_name self) env_vars) w3)
    as (w4 & -> & Hw4 & Hg4 & Hl4).
  exists w4. split; [reflexivity|].
  assert (H14 : wrote_only ["deploy-with-secrets.sh"; "fly.toml"] w1 w4).
  { apply (wrote_only_trans ["deploy-with-secrets.sh"] ["fly.toml"] w1 w2 w4 Hw2).
    apply (wrote_only_trans [] ["fly.toml"] w2 w3 w4 Hw3 Hw4). }
  assert (H34 : wrote_only ["fly.toml"] w2 w4)
    by apply (wrote_only_trans [] ["fly.toml"] w2 w3 w4 Hw3 Hw4).
  split; [exact (wrote_only_trans ["secrets.json"] _ w w1 w4 Hw1 H14)|].
  assert (Hg3 : registry w3 = registry w2) by reflexivity.
  split; [congruence|].
  unfold output. fold (out self "fly.toml") (out self "secrets.json")
                      (out self "deploy-with-secrets.sh").
  split; [|split].
  - rewrite (resolve_cwd w4 w3) by apply Hw4. exact Hl4.
  - rewrite (lookup_wrote_only _ w2 w4 _ H34)
      by (simpl; intros [H|[]]; discriminate).
    rewrite (resolve_cwd w2 w1) by apply Hw2. exact Hl2.
  - rewrite (lookup_wrote_only _ w1 w4 _ H14)
      by (simpl; intros [H|[H|[]]]; discriminate).
    rewrite (resolve_cwd w1 w) by apply Hw1. exact Hl1.
Qed.

Lemma build_raise (self : Builder) (w wa : World) (e : exn) :
  analyze_source ast_parse module_body self w = (Raise e, wa) ->
  build ast_parse module_body json_str self w = (Raise e, wa).
Proof.
  intros Ha. cbv beta iota zeta delta [build bind]. now rewrite Ha.
Qed.

(** Once the analysis succeeded, the build runs to its end and the
    artifacts are these. *)
Lemma build_after_analysis (self self' : Builder) (w wa : World) :
  analyze_source ast_parse module_body self w = (Ok self', wa) ->
  let od := output_dir self in
  let env_vars := env_of (source_file self) w in
  let secrets := fst (_categorize_env_vars env_vars) in
  exists w',
    build ast_parse module_body json_str self w = (Ok (self', od), w') /\
    wrote_only artifact_names w w' /\
    registry w' = registry wa /\
    output w' od "flask_app.py" =
      Some (flask_app_text (wandb_enabled self') (endpoints self')) /\
    output w' od "Dockerfile" = Some dockerfile_content /\
    output w' od "fly.toml" =
      Some (fly_toml_content (original_name self) env_vars) /\
    output w' od "deploy-with-secrets.sh" =
      Some (deployment_script_content env_vars) /\
    output w' od "secrets.json" =
      match secrets with
      | [] => output w od "secrets.json"
      | _ :: _ => Some (secrets_json json_str secrets)
      end.
Proof.
  intros Ha od env_vars secrets.
  destruct (analyze_source_frame _ _ _ _ Ha)
    as (Hf & Hwa & Hsf & Hod & Hon & Hwb & Had & content & Hsrc).
  assert (Hsrc' : fs_lookup (resolve wa (source_file self')) (files wa) =
                  Some content).
  { rewrite Hsf, Hf, (resolve_cwd wa w) by apply Hwa. exact Hsrc. }
  cbv beta iota zeta delta [build bind]. rewrite Ha.
  destruct (copy_source_file_ok self' wa content Hsrc')
    as (w1 & -> & Hw1 & Hg1).
  destruct (generate_flask_app_ok self' w1) as (w2 & -> & Hw2 & Hg2 & Hl2).
  destruct (generate_dockerfile_ok self' w2) as (w3 & -> & Hw3 & Hg3 & Hl3).
  destruct (generate_requirements_ok self' w3) as (w4 & -> & Hw4 & Hg4).
  destruct (generate_fly_toml_ok self' w4)
    as (w5 & -> & Hw5 & Hg5 & Hfly & Hscript & Hsecrets).
  cbv beta iota zeta delta [ret]. rewrite Hod. fold od.
  exists w5. split; [reflexivity|].
  assert (H01 : wrote_only ["user_module.py"] w w1)
    by apply (wrote_only_trans [] _ w wa w1 Hwa Hw1).
  assert (H02 : wrote_only ["user_module.py"; "flask_app.py"] w w2)
    by apply (wrote_only_trans ["user_module.py"] _ w w1 w2 H01 Hw2).
  assert (H03 : wrote_only ["user_module.py"; "flask_app.py"; "Dockerfile"] w w3)
    by apply (wrote_only_trans ["user_module.py"; "flask_app.py"] _ w w2 w3
                H02 Hw3).
  assert (H04 : wrote_only ["user_module.py"; "flask_app.py"; "Dockerfile";
                            "requirements.txt"] w w4)
    by apply (wrote_only_trans
                ["user_module.py"; "flask_app.py"; "Dockerfile"] _ w w3 w4
                H03 Hw4).
  assert (H05 : wrote_only artifact_names w w5)
    by apply (wrote_only_trans
                ["user_module.py"; "flask_app.py"; "Dockerfile";
                 "requirements.txt"] _ w w4 w5 H04 Hw5).
  assert (H35 : wrote_only ["requirements.txt"; "secrets.json";
                            "deploy-with-secrets.sh"; "fly.toml"] w3 w5)
    by apply (wrote_only_trans ["requirements.txt"] _ w3 w4 w5 Hw4 Hw5).
  assert (H25 : wrote_only ["Dockerfile"; "requirements.txt"; "secrets.json";
                            "deploy-with-secrets.sh"; "fly.toml"] w2 w5)
    by apply (wrote_only_trans ["Dockerfile"] _ w2 w3 w5 Hw3 H35).
  assert (Henv : env_of (source_file self') w4 = env_vars).
  { rewrite Hsf. apply (env_of_wrote_only _ _ w w4 H04).
    simpl. intuition discriminate. }
  rewrite Henv, Hon, Hod in *. fold od in Hfly, Hscript, Hsecrets.
  split; [exact H05|]. split; [congruence|].
  split; [|split; [|split; [exact Hfly|split; [exact Hscript|]]]].
  - unfold output.
    unfold out in Hl2. rewrite Hod in Hl2. fold od in Hl2.
    rewrite (lookup_wrote_only _ w2 w5 _ H25)
      by (simpl; intuition discriminate).
    rewrite (resolve_cwd w2 w1) by apply Hw2. exact Hl2.
  - unfold output. unfold out in Hl3. rewrite Hod in Hl3. fold od in Hl3.
    rewrite (lookup_wrote_only _ w3 w5 _ H35)
      by (simpl; intuition discriminate).
    rewrite (resolve_cwd w3 w2) by apply Hw3. exact Hl3.
  - rewrite Hsecrets. fold secrets. destruct secrets; [|reflexivity].
    unfold output.
    apply (lookup_wrote_only _ w w4 _ H04). simpl. intuition discriminate.
Qed.


End Steps.

(** ** The endpoint list *)





Section Claims.

Variable ast_parse : string -> option node.
Variable module_body : string -> list ExposeCall * option exn.
Variable json_str : string -> string.


End Claims.



(** ** The deployment script *)

Lemma stage_lines_from (secrets : dict) (acc : string) :
  fold_left (fun acc kv => acc ++ stage_line kv) secrets acc =
  acc ++ cat (map stage_line secrets).
Proof.
  revert acc; induction secrets as [|kv d IH]; intros acc; simpl.
  - now rewrite append_nil_r.
  - rewrite IH. now rewrite append_assoc.
Qed.

(** The script is its header, one staging command per secret, and the
    footer that fits. *)
Lemma deployment_script_shape (env_vars : dict) :
  let secrets := fst (_categorize_env_vars env_vars) in
  deployment_script_content env_vars =
  text script_header ++ cat (map stage_line secrets) ++
  match secrets with
  | [] => text script_footer_plain
  | _ :: _ => text script_footer_secrets
  end.
Proof.
  unfold deployment_script_content.
  destruct (_categorize_env_vars env_vars) as [secrets regular]. cbn [fst].
  rewrite stage_lines_from. destruct secrets; now rewrite append_assoc.
Qed.

Section Outcomes.

Variable ast_parse : string -> option node.
Variable module_body : string -> list ExposeCall * option exn.
Variable json_str : string -> string.

(** C2, as the code has it. Every build that succeeds writes
    [deploy-with-secrets.sh], with or without Sensitive entries: the
    header, one staging command per Sensitive entry, then a deploy
    command. With no Sensitive entry it is the fixed text of the header
    and of the plain footer, which holds no configuration value. The file
    written only when a Sensitive entry exists is [secrets.json]. *)
Theorem deployment_script_always_written (self : Builder) (w w' : World)
    (r : Builder * string)
    (Hrun : build ast_parse module_body json_str self w = (Ok r, w')) :
  let od := output_dir self in
  let env_vars := env_of (source_file self) w in
  let secrets := fst (_categorize_env_vars env_vars) in
  output w' od "deploy-with-secrets.sh" =
    Some (deployment_script_content env_vars) /\
  deployment_script_content env_vars =
    text script_header ++ cat (map stage_line secrets) ++
    match secrets with
    | [] => text script_footer_plain
    | _ :: _ => text script_footer_secrets
    end /\
  (secrets = [] ->
   deployment_script_content env_vars =
     text script_header ++ text script_footer_plain) /\
  output w' od "secrets.json" =
    match secrets with
    | [] => output w od "secrets.json"
    | _ :: _ => Some (secrets_json json_str secrets)
    end.
Proof.
  intros od env_vars secrets.
  destruct (analyze_source ast_parse module_body self w) as [[self'|e] wa] eqn:Ha.
  - destruct (build_after_analysis ast_parse module_body json_str _ _ _ _ Ha)
      as (w5 & Hb & _ & _ & _ & _ & _ & Hscript & Hsecrets).
    rewrite Hb in Hrun. inversion Hrun; subst w5.
    split; [exact Hscript|].
    split; [apply deployment_script_shape|].
    split; [|exact Hsecrets].
    intros Hs. rewrite deployment_script_shape. fold env_vars. fold secrets.
    rewrite Hs. reflexivity.
  - rewrite (build_raise ast_parse module_body json_str _ _ _ _ Ha) in Hrun.
    discriminate.
Qed.




End Outcomes.

Lemma deployment_script_always_written_witness :
  let w := sample_world nested_text
             (Some (text ["OPENAI_API_KEY=sk-abc"; "NAME=dawg"])) in
  let self := new_builder sample_source "/tmp/out" None true w in
  let r := build (parses_to nested_text nested_module) (runs_as nested_text [])
                 json_quote self w in
  succeeded r = true /\
  output (snd r) "/tmp/out" "deploy-with-secrets.sh" =
    Some (deployment_script_content
            [("OPENAI_API_KEY", "sk-abc"); ("NAME", "dawg")]).
Proof.
  intros w self r.
  assert (Hrun : r = (Ok (match fst r with
                          | Ok x => x
                          | Raise _ => (self, EmptyString)
                          end), snd r)) by (vm_compute; reflexivity).
  split; [vm_compute; reflexivity|].
  exact (proj1 (deployment_script_always_written
                  (parses_to nested_text nested_module) (runs_as nested_text [])
                  json_quote self w (snd r) _ Hrun)).
Defined.

(** C2 as stated fails: with a configuration that has no Sensitive entry
    the build still writes the script, which was not there before. *)
Lemma script_written_without_secrets :
  let w := sample_world nested_text (Some (text ["NAME=dawg"])) in
  let r := run (parses_to nested_text nested_module) (runs_as nested_text [])
               json_quote sample_source "/tmp/out" None true w in
  succeeded r = true /\
  _categorize_env_vars (env_of sample_source w) = ([], [("NAME", "dawg")]) /\
  output w "/tmp/out" "deploy-with-secrets.sh" = None /\
  output (snd r) "/tmp/out" "deploy-with-secrets.sh" =
    Some (text script_header ++ text script_footer_plain) /\
  output (snd r) "/tmp/out" "secrets.json" = None.
Proof. repeat split; vm_compute; reflexivity. Qed.





(** The registry belongs to the process, and no build clears it: a
    second declarative build in the process of the first finds the
    registrations of both.  This is why the registry at the start is one
    of the inputs in [same_inputs]. *)
Lemma registry_outlives_a_build :
  let w := sample_world hello_text None in
  let first :=
    run (parses_to hello_text hello_module) (runs_as hello_text hello_calls)
        json_quote sample_source "/tmp/out" None false w in
  let second :=
    run (parses_to hello_text hello_module) (runs_as hello_text hello_calls)
        json_quote sample_source "/tmp/out" None false (snd first) in
  routes (endpoints_of first) = [("GET", "/hello")] /\
  routes (endpoints_of second) = [("GET", "/hello"); ("GET", "/hello")].
Proof. split; vm_compute; reflexivity. Qed.

(* ================================================================== *)
(** * Further properties *)

(** ** The heuristic rules *)







(** ** The shape of the paths *)



Lemma map_str_length (f : ascii -> ascii) (s : string) :
  String.length (map_str f s) = String.length s.
Proof. induction s as [|c s IH]; simpl; [reflexivity | now rewrite IH]. Qed.




(** ** The order of detection *)

Lemma walk_queue_front (q acc : list node) (fuel : nat) :
  List.length q <= fuel ->
  walk_queue fuel (q ++ acc) =
  (q ++ walk_queue (fuel - List.length q) (acc ++ flat_map children_of q))%list.
Proof.
  revert acc fuel; induction q as [|n q IH]; intros acc fuel Hf.
  - simpl. now rewrite Nat.sub_0_r, app_nil_r.
  - destruct fuel as [|fuel]; [simpl in Hf; lia|].
    cbn [walk_queue app List.length flat_map Nat.sub]. f_equal.
    rewrite <- app_assoc, IH by (simpl in Hf; lia).
    now rewrite <- app_assoc.
Qed.

Lemma length_le_sizes (q : list node) : List.length q <= sizes q.
Proof.
  unfold sizes. induction q as [|n q IH]; simpl; [lia|].
  rewrite size_children. lia.
Qed.

Lemma filter_map_app {A B : Type} (f : A -> option B) (l1 l2 : list A) :
  filter_map f (l1 ++ l2) = (filter_map f l1 ++ filter_map f l2)%list.
Proof.
  induction l1 as [|a l1 IH]; simpl; [reflexivity|].
  destruct (f a); simpl; now rewrite IH.
Qed.

(** X5. Detection goes level by level: the endpoints of the definitions
    in the module body come first, in source order, and those of
    definitions nested in them (in functions, classes, blocks) only
    after. *)
Theorem detect_top_level_first (tree : node) :
  exists deeper,
    detect tree =
      (filter_map _analyze_function_for_endpoint (tree :: children_of tree)
       ++ deeper)%list /\
    forall a, In a deeper ->
      exists g n, In g (grandchildren_of tree) /\ within n g /\
                  _analyze_function_for_endpoint n = Some a.
Proof.
  unfold detect, walk.
  assert (E : walk_queue (size tree) [tree] =
              (tree :: children_of tree ++
               walk_queue (size tree - 1 - List.length (children_of tree))
                          (grandchildren_of tree))%list).
  { rewrite size_children. cbn [walk_queue]. f_equal.
    rewrite <- (app_nil_r ([] ++ children_of tree)%list). cbn [app].
    rewrite walk_queue_front by apply length_le_sizes.
    cbn [app Nat.sub]. now rewrite Nat.sub_0_r. }
  rewrite E.
  exists (filter_map _analyze_function_for_endpoint
            (walk_queue (size tree - 1 - List.length (children_of tree))
                        (grandchildren_of tree))).
  split.
  - change (tree :: children_of tree ++ ?r)%list
      with ((tree :: children_of tree) ++ r)%list.
    apply filter_map_app.
  - intros a Ha. apply filter_map_In in Ha as [n [Hn Ha]].
    apply walk_queue_sound in Hn as [g [Hg Hw]]. now exists g, n.
Qed.

(** ** Repeated analysis *)

Section Repeated.

Variable ast_parse : string -> option node.
Variable module_body : string -> list ExposeCall * option exn.

(** X6. The analysis adds to what the builder holds and clears nothing.
    In auto-detect mode a call appends the detected functions to
    [auto_detected_endpoints] and then converts the whole of that list
    again, so a second call on the same builder leaves every endpoint
    three times in [endpoints]. *)
Theorem analysis_accumulates (self : Builder) (w : World)
    (content : string) (tree : node)
    (Hauto : auto_detect self = true)
    (Hsrc : fs_lookup (resolve w (source_file self)) (files w) = Some content)
    (Hparse : ast_parse content = Some tree) :
  exists self1 self2,
    analyze_source ast_parse module_body self w = (Ok self1, w) /\
    auto_detected_endpoints self1 =
      (auto_detected_endpoints self ++ detect tree)%list /\
    endpoints self1 =
      (endpoints self ++
       map to_endpoint (auto_detected_endpoints self ++ detect tree))%list /\
    analyze_source ast_parse module_body self1 w = (Ok self2, w) /\
    (endpoints self = [] -> auto_detected_endpoints self = [] ->
     endpoints self2 =
       (map to_endpoint (detect tree) ++ map to_endpoint (detect tree) ++
        map to_endpoint (detect tree))%list).
Proof.
  assert (Hstep : forall s, auto_detect s = true ->
            source_file s = source_file self ->
            analyze_source ast_parse module_body s w =
              (Ok (with_endpoints
                     (endpoints s ++
                      map to_endpoint (auto_detected_endpoints s ++ detect tree))
                     (with_auto_detected
                        (auto_detected_endpoints s ++ detect tree) s)), w)).
  { intros s Ha Hs. unfold analyze_source. rewrite Ha.
    cbv beta iota zeta delta [bind auto_detect_endpoints read_text ret].
    rewrite Hs, Hsrc, Hparse. reflexivity. }
  eexists. eexists.
  split; [apply Hstep; [assumption | reflexivity]|].
  split; [reflexivity|]. split; [reflexivity|].
  split; [apply Hstep; [exact Hauto | reflexivity]|].
  intros He Ha. cbn. rewrite He, Ha. cbn [app].
  now rewrite map_app.
Qed.

End Repeated.

Lemma analysis_accumulates_witness :
  let w := sample_world alias_text None in
  let self := new_builder sample_source "/tmp/out" None true w in
  exists self1 self2,
    analyze_source (parses_to alias_text alias_module) (runs_as alias_text [])
                   self w = (Ok self1, w) /\
    analyze_source (parses_to alias_text alias_module) (runs_as alias_text [])
                   self1 w = (Ok self2, w) /\
    List.length (endpoints self1) = 2 /\ List.length (endpoints self2) = 6.
Proof.
  intros w self.
  destruct (analysis_accumulates (parses_to alias_text alias_module)
              (runs_as alias_text []) self w alias_text alias_module
              eq_refl eq_refl eq_refl)
    as (self1 & self2 & H1 & _ & He1 & H2 & He2).
  exists self1, self2. split; [exact H1|]. split; [exact H2|].
  rewrite He1, (He2 eq_refl eq_refl). split; reflexivity.
Defined.

(** ** Reading the configuration source *)



















(** ** The deployment script and the manifest *)

Lemma prefix_nil (s : string) : prefix EmptyString s = true.
Proof. destruct s; reflexivity. Qed.

Lemma replace_go_quote (new v : string) :
  replace_go "'" new 0 v =
  match v with
  | EmptyString => EmptyString
  | String c v' =>
      if Ascii.eqb c "'" then new ++ replace_go "'" new 0 v'
      else String c (replace_go "'" new 0 v')
  end.
Proof.
  destruct v as [|c v]; [reflexivity|].
  cbn [replace_go prefix String.length Nat.sub].
  destruct (ascii_dec "'" c) as [<-|Hne].
  - now rewrite prefix_nil, Ascii.eqb_refl.
  - destruct (Ascii.eqb_spec c "'") as [->|_]; [congruence | reflexivity].
Qed.

Lemma unquote_escaped (v rest : string) :
  sh_unquote (Some "'"%char) (escaped_value v ++ String "'" rest) =
  v ++ sh_unquote None rest.
Proof.
  unfold escaped_value, replace. induction v as [|c v IH].
  - simpl. reflexivity.
  - rewrite replace_go_quote. destruct (Ascii.eqb_spec c "'") as [->|Hne].
    + rewrite !append_assoc. cbn -[replace_go]. f_equal.
      rewrite <- IH. reflexivity.
    + cbn [append sh_unquote].
      destruct (Ascii.eqb_spec c "'"); [contradiction|]. f_equal. exact IH.
Qed.

(** X11. The staging command quotes the value so that the shell reads it
    back unchanged: the word between the single quotes, with every single
    quote of the value written as a closed quote, a double-quoted single
    quote and a reopened quote, unquotes to the value, whatever characters
    it holds. *)
Theorem staged_value_round_trip (key value : string) :
  stage_line (key, value) =
    "flyctl secrets set " ++ key ++ "=" ++
    ("'" ++ escaped_value value ++ "'") ++ " --stage" ++ nl /\
  sh_unquote None ("'" ++ escaped_value value ++ "'") = value /\
  (has_char "'" value = false -> escaped_value value = value).
Proof.
  split; [|split].
  - unfold stage_line, escaped_value. cbn [fst snd].
    now rewrite !append_assoc.
  - cbn [append sh_unquote Ascii.eqb]. cbn [orb].
    change (sh_unquote (Some "'"%char) (escaped_value value ++ "'") = value).
    rewrite unquote_escaped. simpl. apply append_nil_r.
  - unfold escaped_value, replace. induction value as [|c v IH];
      [reflexivity|].
    intros H. simpl in H. apply orb_false_iff in H as [Hc Hv].
    rewrite replace_go_quote, Hc. now rewrite IH.
Qed.

(** X12. The application name of the manifest is the original name with
    a hyphen for every underscore: it holds no underscore, has the length
    of the original name, and stands in the second line of [fly.toml]. *)
Theorem app_name_has_no_underscore (original_name : string) (env_vars : dict) :
  let app_name := replace "_" "-" original_name in
  has_char "_" app_name = false /\
  String.length app_name = String.length original_name /\
  (has_char "_" original_name = false -> app_name = original_name) /\
  exists rest,
    fly_toml_content original_name env_vars =
      ("# fly.toml - Generated by getmethatdawg" ++ nl) ++
      ("app = " ++ dq ++ app_name ++ dq ++ nl) ++ rest.
Proof.
  intros app_name. subst app_name.
  change "_" with (String "_"%char EmptyString).
  change "-" with (String "-"%char EmptyString).
  rewrite !replace_one_char.
  split; [|split; [apply map_str_length|split]].
  - induction original_name as [|c s IH]; simpl; [reflexivity|].
    rewrite IH. destruct (Ascii.eqb_spec c "_") as [->|Hne]; [reflexivity|].
    apply Ascii.eqb_neq in Hne. now rewrite Hne.
  - induction original_name as [|c s IH]; simpl; [reflexivity|].
    intros H. apply orb_false_iff in H as [Hc Hs]. now rewrite Hc, IH.
  - unfold fly_toml_content.
    change (String "_"%char EmptyString) with "_".
    change (String "-"%char EmptyString) with "-".
    rewrite <- replace_one_char.
    destruct (_categorize_env_vars env_vars) as [secrets regular].
    unfold fly_toml_head, text. cbn [map cat].
    eexists. rewrite !append_assoc. reflexivity.
Qed.

(** ** The dependency manifest *)




(** ** The copy of the source *)


Lemma cat_app (l1 l2 : list string) : cat (l1 ++ l2) = cat l1 ++ cat l2.
Proof.
  induction l1 as [|x l1 IH]; simpl; [reflexivity|].
  now rewrite IH, append_assoc.
Qed.



(** ** The generated server *)

Lemma cat_map_occurs {A : Type} (f : A -> string) (l : list A) (x : A) :
  In x l -> exists a b, cat (map f l) = a ++ f x ++ b.
Proof.
  induction l as [|y l IH]; intros Hin; [destruct Hin|];
    destruct Hin as [<-|Hin].
  - exists EmptyString, (cat (map f l)). reflexivity.
  - destruct (IH Hin) as (a & b & E). exists (f y ++ a), b.
    simpl. now rewrite E, append_assoc.
Qed.

Lemma join_map_occurs {A : Type} (sep : string) (f : A -> string)
    (l : list A) (x : A) :
  In x l -> exists a b, join sep (map f l) = a ++ f x ++ b.
Proof.
  induction l as [|y l IH]; intros Hin; [destruct Hin|];
    destruct Hin as [<-|Hin].
  - destruct l as [|z l].
    + exists EmptyString, EmptyString. simpl. now rewrite append_nil_r.
    + exists EmptyString, (sep ++ join sep (map f (z :: l))). reflexivity.
  - destruct (IH Hin) as (a & b & E). destruct l as [|z l]; [destruct Hin|].
    exists (f y ++ sep ++ a), b.
    change (join sep (map f (y :: z :: l)))
      with (f y ++ sep ++ join sep (map f (z :: l))).
    now rewrite E, !append_assoc.
Qed.

Lemma health_entry_item (n i : nat) (e : Endpoint) :
  health_entry n (i, e) =
  health_item e ++ (if (i <? n - 1)%nat then "," else EmptyString) ++ nl.
Proof.
  unfold health_entry, health_item. now rewrite !append_assoc.
Qed.

Lemma health_list_from (es : list Endpoint) (i : nat) :
  cat (map (health_entry (i + List.length es))
           (combine (seq i (List.length es)) es)) =
  match es with
  | [] => EmptyString
  | _ :: _ => join ("," ++ nl) (map health_item es) ++ nl
  end.
Proof.
  revert i; induction es as [|e es IH]; intros i; [reflexivity|].
  cbn [List.length seq combine map cat].
  replace (i + S (List.length es)) with (S i + List.length es) by lia.
  rewrite IH, health_entry_item.
  destruct es as [|e' es].
  - replace (i <? S i + List.length [] - 1)%nat with false
      by (symmetry; apply Nat.ltb_ge; simpl; lia).
    simpl. now rewrite !append_assoc, append_nil_r.
  - replace (i <? S i + List.length (e' :: es) - 1)%nat with true
      by (symmetry; apply Nat.ltb_lt; simpl; lia).
    cbv iota. cbn [map join]. now rewrite !append_assoc.
Qed.

(** X16. The generated server binds every endpoint and lists every
    endpoint: its text is the fixed parts around one route binding per
    endpoint, in order, and a health list of one item per endpoint with a
    comma between two items and none after the last; so the binding and
    the item of each endpoint occur in it, and with no endpoint only the
    health route is left. *)
Theorem server_covers_endpoints (wandb_enabled : bool) (es : list Endpoint) :
  flask_app_text wandb_enabled es =
    text flask_prelude ++
    (if wandb_enabled then text weave_init_lines else EmptyString) ++
    text flask_helpers ++ cat (map route_code es) ++ text health_head ++
    match es with
    | [] => EmptyString
    | _ :: _ => join ("," ++ nl) (map health_item es) ++ nl
    end ++ text health_tail /\
  forall e, In e es ->
    (exists a b, flask_app_text wandb_enabled es = a ++ route_code e ++ b) /\
    (exists a b, flask_app_text wandb_enabled es = a ++ health_item e ++ b).
Proof.
  assert (E : flask_app_text wandb_enabled es =
    text flask_prelude ++
    (if wandb_enabled then text weave_init_lines else EmptyString) ++
    text flask_helpers ++ cat (map route_code es) ++ text health_head ++
    match es with
    | [] => EmptyString
    | _ :: _ => join ("," ++ nl) (map health_item es) ++ nl
    end ++ text health_tail).
  { unfold flask_app_text, enumerate.
    rewrite <- (health_list_from es 0). reflexivity. }
  split; [exact E|]. intros e He. rewrite E. split.
  - destruct (cat_map_occurs route_code es e He) as (a & b & Hab).
    rewrite Hab.
    exists (text flask_prelude ++
            (if wandb_enabled then text weave_init_lines else EmptyString) ++
            text flask_helpers ++ a).
    eexists. rewrite !append_assoc. reflexivity.
  - destruct es as [|e0 es']; [destruct He|].
    destruct (join_map_occurs ("," ++ nl) health_item (e0 :: es') e He)
      as (a & b & Hab).
    rewrite Hab.
    exists (text flask_prelude ++
            (if wandb_enabled then text weave_init_lines else EmptyString) ++
            text flask_helpers ++ cat (map route_code (e0 :: es')) ++
            text health_head ++ a).
    eexists. rewrite !append_assoc. reflexivity.
Qed.

(** ** What a build does to the world *)









Section Effects.

Variable ast_parse : string -> option node.
Variable module_body : string -> list ExposeCall * option exn.
Variable json_str : string -> string.






End Effects.


Section BuildEffects.

Variable ast_parse : string -> option node.
Variable module_body : string -> list ExposeCall * option exn.
Variable json_str : string -> string.




End BuildEffects.



(** ** The entry point *)

Lemma parse_args_from (args : list string) (nm : option string) (flag : bool) :
  snd (fold_left parse_step args (nm, flag)) =
    flag || in_list "--auto-detect" args /\
  (truthy_opt nm = true -> fst (fold_left parse_step args (nm, flag)) = nm) /\
  (truthy_opt nm = false ->
   match find names_app args with
   | Some a => fst (fold_left parse_step args (nm, flag)) = Some a
   | None => truthy_opt (fst (fold_left parse_step args (nm, flag))) = false
   end).
Proof.
  revert nm flag; induction args as [|a args IH]; intros nm flag.
  - simpl. rewrite orb_false_r. auto.
  - cbn [fold_left find in_list existsb]. unfold parse_step at 2 4 6 8.
    rewrite (String.eqb_sym "--auto-detect" a). unfold names_app at 1.
    destruct (String.eqb a "--auto-detect") eqn:Ea; cbn [negb andb].
    + destruct (IH nm true) as (Hs & Ht & Hf).
      rewrite Hs. cbn [orb]. rewrite orb_true_r. auto.
    + destruct (truthy_opt nm) eqn:En; cbn [negb].
      * destruct (IH nm flag) as (Hs & Ht & Hf).
        rewrite Hs. cbn [orb]. split; [reflexivity|].
        split; [intros _; apply Ht, En | discriminate].
      * destruct (IH (Some a) flag) as (Hs & Ht & Hf).
        rewrite Hs. cbn [orb]. split; [reflexivity|].
        split; [discriminate|]. intros _. cbn [truthy_opt] in Ht, Hf.
        destruct (truthy a); [now apply Ht | now apply Hf].
Qed.

(** X19. The arguments of [main] after the source file. The flag
    [--auto-detect] counts wherever it stands; the application name is
    the first argument that is neither the flag nor empty, and without
    one the builder falls back on the stem of the source file name. *)
Theorem main_arguments (args : list string) (source_file : Path)
    (output_dir : string) (w : World) :
  let '(given_name, flag) := parse_args args in
  (flag = true <-> In "--auto-detect" args) /\
  original_name (new_builder source_file output_dir given_name flag w) =
    match find names_app args with
    | Some a => a
    | None => stem (name source_file)
    end.
Proof.
  destruct (parse_args_from args None false) as (Hs & _ & Hf).
  fold (parse_args args) in Hs, Hf.
  destruct (parse_args args) as [nm flag]. cbn [fst snd] in Hs, Hf.
  split.
  - rewrite Hs. cbn [orb]. apply in_list_spec.
  - specialize (Hf eq_refl). cbn [original_name new_builder].
    destruct (find names_app args) as [a|] eqn:E.
    + subst nm. apply find_some in E as [_ E]. unfold names_app in E.
      apply andb_true_iff in E as [_ E]. now rewrite E.
    + destruct nm as [n|]; [|reflexivity]. cbn [truthy_opt] in Hf.
      now rewrite Hf.
Qed.

Section MainFacts.

Variable ast_parse : string -> option node.
Variable module_body : string -> list ExposeCall * option exn.
Variable json_str : string -> string.
Variable to_path : string -> Path.







End MainFacts.



(** ** Failures of the declarative strategy *)

Section Declarative.

Variable ast_parse : string -> option node.
Variable module_body : string -> list ExposeCall * option exn.
Variable json_str : string -> string.


End Declarative.


(** ** Secrets in the deployment script *)

(** X23. Every Sensitive entry is staged, and nothing else is: the
    staging commands of the script are those of the Sensitive entries of
    the configuration, one each, in the order of the configuration, with
    key and quoted value; a Public entry has no staging command. *)
Theorem secrets_staged (env_vars : dict) (Hwf : wf env_vars) :
  deployment_script_content env_vars =
    text script_header ++
    cat (map stage_line (filter secret_entry env_vars)) ++
    match filter secret_entry env_vars with
    | [] => text script_footer_plain
    | _ :: _ => text script_footer_secrets
    end /\
  (forall key value,
      In (key, value) env_vars -> classify key = Sensitive ->
      exists a b, deployment_script_content env_vars =
                    a ++ stage_line (key, value) ++ b) /\
  (forall key value,
      In (key, value) (filter secret_entry env_vars) ->
      In (key, value) env_vars /\ classify key = Sensitive).
Proof.
  assert (E : deployment_script_content env_vars =
    text script_header ++
    cat (map stage_line (filter secret_entry env_vars)) ++
    match filter secret_entry env_vars with
    | [] => text script_footer_plain
    | _ :: _ => text script_footer_secrets
    end).
  { rewrite deployment_script_shape, (categorize_filter env_vars Hwf).
    reflexivity. }
  split; [exact E|]. split.
  - intros key value Hin Hs. apply classify_sensitive in Hs.
    assert (Hf : In (key, value) (filter secret_entry env_vars))
      by (apply filter_In; split; assumption).
    destruct (cat_map_occurs stage_line _ _ Hf) as (a & b & Hab).
    rewrite E, Hab. exists (text script_header ++ a). eexists.
    rewrite !append_assoc. reflexivity.
  - intros key value Hin. apply filter_In in Hin as [Hin Hs].
    split; [assumption | now apply classify_sensitive].
Qed.

Lemma secrets_staged_witness :
  exists a b,
    deployment_script_content
      [("NAME", "dawg"); ("OPENAI_API_KEY", "sk-abc")] =
    a ++ ("flyctl secrets set OPENAI_API_KEY='sk-abc' --stage" ++ nl) ++ b.
Proof.
  assert (Hwf : wf [("NAME", "dawg"); ("OPENAI_API_KEY", "sk-abc")]).
  { unfold wf. simpl. repeat constructor; simpl; intuition discriminate. }
  apply (proj1 (proj2 (secrets_staged _ Hwf)) "OPENAI_API_KEY" "sk-abc").
  - right. now left.
  - reflexivity.
Defined.
